(** * GuidedFlow: the guide-graph execution model of the customer widget,
      the agent portal and the authentication context.

    The page components are React function components.  Every event handler
    is embedded as a computation over the component's state and a world that
    records the HTTP requests issued through axios, the toast notifications
    raised and the clipboard writes.  The backend is an oracle that decides,
    for every request, whether the promise resolves or rejects. *)

From Stdlib Require Import ZArith Ascii String Lia.
From stdpp Require Import base strings list gmap.

Local Open Scope string_scope.
Local Open Scope list_scope.

(** ** JavaScript strings

    A string is a sequence of code units; the development works with the
    code units below 256, so a character is an [ascii].  The white space of
    [String.prototype.trim] in that range is TAB, LF, VT, FF, CR, SPACE and
    NBSP. *)
Module JS.

Definition isWhiteSpace (c : ascii) : bool :=
  let n := N_of_ascii c in
  (((9 <=? n) && (n <=? 13)) || (n =? 32) || (n =? 160))%N.

Fixpoint trimStart (s : string) : string :=
  match s with
  | EmptyString => EmptyString
  | String c s' => if isWhiteSpace c then trimStart s' else s
  end.

Fixpoint trimEnd (s : string) : string :=
  match s with
  | EmptyString => EmptyString
  | String c s' =>
      match trimEnd s' with
      | EmptyString => if isWhiteSpace c then EmptyString else String c EmptyString
      | t => String c t
      end
  end.

Definition trim (s : string) : string := trimEnd (trimStart s).

(** Truthiness of a string value: only the empty string is falsy. *)
Definition truthy (s : string) : bool :=
  match s with
  | EmptyString => false
  | String _ _ => true
  end.

(** [o?.trim()] followed by a truthiness test: [undefined] is falsy. *)
Definition truthy_trim (o : option string) : bool :=
  match o with
  | None => false
  | Some s => truthy (trim s)
  end.

(** [a || b] on strings that may be undefined. *)
Definition or_else (o : option string) (d : string) : string :=
  match o with
  | Some s => if truthy s then s else d
  | None => d
  end.

(** Every character of the string is white space. *)
Fixpoint blank (s : string) : bool :=
  match s with
  | EmptyString => true
  | String c s' => isWhiteSpace c && blank s'
  end.

End JS.

(** ** Data model: the records exchanged with the backend.

    Fields that only the JSX rendering reads (labels, placeholders, option
    lists, colours) are left out.  An absent property is [None]. *)

Record Input := {
  input_id : string;
  input_required : bool
}.

Record NodeData := {
  slug : option string;
  node_type : option string;
  title : option string;
  content : option string;
  visibility : option string;
  inputs : option (list Input);
  escalationEnabled : bool;
  escalationCategory : option string
}.

(** A node of [version.graph.nodes].  The completion card that
    [completeSession] installs as current step has no [id]. *)
Record Node := {
  node_id : option string;
  node_data : option NodeData
}.

(** [version.graph.nodes]; a version whose [graph] or [nodes] is absent
    never gets a current step (the [?.] chain of the initialisation yields
    [undefined > 0]), exactly as one with no node, and is represented by
    the empty list. *)
Record Version := {
  nodes : list Node
}.

Record Guide := {
  guide_id : string;
  guide_slug : string;
  guide_title : string
}.

Record Session := {
  session_id : string
}.

Record User := {
  user_id : string;
  user_email : string;
  user_role : string
}.

Record CustomerInfo := {
  email : string;
  phone : string
}.

Record CrmData := {
  crm_id : string;
  crm_email : string;
  account_id : string;
  ticket_id : string
}.

(** [node.data?.f] for an optional field [f] of the data record. *)
Definition data_field {A} (f : NodeData -> option A) (n : Node) : option A :=
  match node_data n with
  | Some d => f d
  | None => None
  end.

(** ** Requests *)

(** One entry of [history_snapshot]: the customer widget sends
    [{step: node.data?.title, answers}], the agent portal the node itself. *)
Inductive HistoryEntry :=
| StepAnswers (step : option string) (answers : gmap string string)
| RawNode (n : Node).

Inductive Contact :=
| CustomerContact (info : CustomerInfo)
| AgentContact (agent_email : string) (crm : string).

Record EscalationData := {
  esc_session_id : string;
  esc_guide_id : string;
  esc_step_id : option string;
  esc_category : string;
  esc_message : string;
  history_snapshot : list HistoryEntry;
  contact : Contact
}.

Inductive Props :=
| PropsAnswers (answers : gmap string string)
| PropsCompleted (total_steps : nat) (completion_type : option string)
| PropsEscalation (e : EscalationData)
| PropsCrm (crm : CrmData).

(** Body of [POST /api/events]. *)
Record Event := {
  ev_session_id : string;
  ev_step_id : option string;
  ev_action : string;
  ev_props : Props
}.

Inductive Request :=
| PostEvent (e : Event)
| PostSessionComplete (sid : string)
| PostEscalation (e : EscalationData)
| PatchCrmContext (sid : string) (crm : CrmData) (agent_id agent_name : string).

(** How the promise of a request settles; a rejection carries
    [error.response?.status]. *)
Inductive Outcome :=
| Resolved
| Rejected (status : option nat).

Inductive Toast :=
| ToastError (msg : string)
| ToastSuccess (msg : string).

(** The values interpolated into the CRM note that the agent portal writes
    to the clipboard (the time stamp is left out). *)
Record CrmNote := {
  note_guide : string;
  note_agent : string;
  note_session : string;
  note_crm_id : string;
  note_steps : nat;
  note_answers : gmap string string
}.

Record World := {
  requests : list (Request * Outcome);
  toasts : list Toast;
  clipboard : list CrmNote
}.

(** The backend decides from the history of requests and the new one. *)
Definition Backend := list (Request * Outcome) -> Request -> Outcome.

Definition always_resolves : Backend := fun _ _ => Resolved.
Definition always_rejects (status : option nat) : Backend := fun _ _ => Rejected status.

Definition empty_world : World :=
  {| requests := []; toasts := []; clipboard := [] |}.

(** ** Handlers as computations *)

Inductive Exn :=
| TypeError
| AxiosError (status : option nat).

Inductive Result (A : Type) :=
| Ok (a : A)
| Throw (e : Exn).
Arguments Ok {A} a.
Arguments Throw {A} e.

Record Ctx (S : Type) := {
  ui : S;
  world : World
}.
Arguments ui {S} c.
Arguments world {S} c.
Arguments Build_Ctx {S} ui world.

Definition M (S A : Type) : Type := Backend -> Ctx S -> Result A * Ctx S.

Definition ret {S A} (a : A) : M S A := fun _ c => (Ok a, c).

Definition bind {S A B} (m : M S A) (k : A -> M S B) : M S B :=
  fun b c =>
    match m b c with
    | (Ok a, c') => k a b c'
    | (Throw e, c') => (Throw e, c')
    end.

Definition throw {S A} (e : Exn) : M S A := fun _ c => (Throw e, c).

(** [try { m } catch (error) { h }] *)
Definition try_catch {S A} (m : M S A) (h : Exn -> M S A) : M S A :=
  fun b c =>
    match m b c with
    | (Ok a, c') => (Ok a, c')
    | (Throw e, c') => h e b c'
    end.

Declare Scope js_scope.
Delimit Scope js_scope with js.
Notation "'await' x <- m ;; k" := (bind m (fun x => k))
  (at level 10, x name, m at level 99, k at level 200) : js_scope.
Notation "'run' m ;; k" := (bind m (fun _ => k))
  (at level 10, m at level 99, k at level 200) : js_scope.

(** Reading a property of a value that may be [null]: a [TypeError]. *)
Definition deref {S A} (o : option A) : M S A :=
  match o with
  | Some a => ret a
  | None => throw TypeError
  end.

(** A pure computation that may throw. *)
Definition of_result {S A} (r : Result A) : M S A :=
  match r with
  | Ok a => ret a
  | Throw e => throw e
  end.

(** [Array.prototype.filter] with a callback that may throw: the first
    exception ends the filter. *)
Fixpoint filter_throwing {A} (p : A -> Result bool) (l : list A) : Result (list A) :=
  match l with
  | [] => Ok []
  | x :: l' =>
      match p x with
      | Throw e => Throw e
      | Ok keep =>
          match filter_throwing p l' with
          | Throw e => Throw e
          | Ok r => Ok (if keep then x :: r else r)
          end
      end
  end.

(** A state setter of [useState]. *)
Definition set_state {S} (f : S -> S) : M S unit :=
  fun _ c => (Ok tt, {| ui := f (ui c); world := world c |}).

Definition toast {S} (t : Toast) : M S unit :=
  fun _ c =>
    (Ok tt, {| ui := ui c;
               world := {| requests := requests (world c);
                           toasts := toasts (world c) ++ [t];
                           clipboard := clipboard (world c) |} |}).

Definition clipboard_writeText {S} (n : CrmNote) : M S unit :=
  fun _ c =>
    (Ok tt, {| ui := ui c;
               world := {| requests := requests (world c);
                           toasts := toasts (world c);
                           clipboard := clipboard (world c) ++ [n] |} |}).

(** The notifications that the response interceptor of AuthProvider
    raises for a rejected response before the rejection reaches the
    caller: on status 401 it runs [logout], which announces the logout,
    and reports the expired session; on any other rejection it raises
    none.  What [logout] does to the provider's state is in [AuthContext]. *)
Definition interceptor_toasts (status : option nat) : list Toast :=
  if decide (status = Some 401)
  then [ToastSuccess "Logged out successfully";
        ToastError "Session expired. Please login again."]
  else [].

(** [await axios.<method>(...)] in an event handler, which runs when the
    provider's effect has installed the interceptors: the request is
    issued and recorded with its outcome; a rejection passes the response
    interceptor and is thrown at the [await]. *)
Definition axios {S} (r : Request) : M S unit :=
  fun b c =>
    let o := b (requests (world c)) r in
    match o with
    | Resolved =>
        (Ok tt, {| ui := ui c;
                   world := {| requests := requests (world c) ++ [(r, o)];
                               toasts := toasts (world c);
                               clipboard := clipboard (world c) |} |})
    | Rejected s =>
        (Throw (AxiosError s),
         {| ui := ui c;
            world := {| requests := requests (world c) ++ [(r, o)];
                        toasts := toasts (world c) ++ interceptor_toasts s;
                        clipboard := clipboard (world c) |} |})
    end.

Local Open Scope js_scope.

(** [Array.prototype.findIndex]: the first position whose element satisfies
    the predicate, [-1] when there is none. *)
Fixpoint findIndex_from {A} (p : A -> bool) (l : list A) (i : Z) : Z :=
  match l with
  | [] => (-1)%Z
  | x :: l' => if p x then i else findIndex_from p l' (i + 1)%Z
  end.

Definition findIndex {A} (p : A -> bool) (l : list A) : Z := findIndex_from p l 0%Z.

(** [o === s] for a value [o] that may be undefined and a string [s]. *)
Definition strict_eq (o : option string) (s : string) : bool :=
  match o with
  | Some x => String.eqb x s
  | None => false
  end.

(** [node => node.data?.visibility !== 'agent'] *)
Definition not_agent_only (node : Node) : bool :=
  negb (strict_eq (data_field visibility node) "agent").

(** The two roles of a session. *)
Inductive Role := customer | agent.

(** The sequence a runtime steps through: the customer widget filters
    [version.graph.nodes] with [not_agent_only], the agent portal takes
    [currentVersion.graph.nodes] as it is. *)
Definition visibleSteps (ns : list Node) (r : Role) : list Node :=
  match r with
  | customer => List.filter not_agent_only ns
  | agent => ns
  end.

(** [event => event.action === a], on the log of requests. *)
Definition is_event (a : string) (r : Request * Outcome) : bool :=
  match fst r with
  | PostEvent e => String.eqb (ev_action e) a
  | _ => false
  end.

Definition events_of (a : string) (w : World) : list Event :=
  omap (fun r => match fst r with
                 | PostEvent e => if String.eqb (ev_action e) a then Some e else None
                 | _ => None
                 end) (requests w).

Definition escalations_of (w : World) : list EscalationData :=
  omap (fun r => match fst r with
                 | PostEscalation e => Some e
                 | _ => None
                 end) (requests w).

(** ** The customer widget (CustomerWidget component) *)
Module CustomerWidget.

Record State := {
  guide : option Guide;
  version : option Version;
  session : option Session;
  currentStep : option Node;
  stepIndex : nat;
  answers : gmap string string;
  customerInfo : CustomerInfo;
  showEscalation : bool;
  escalationMessage : string;
  loading : bool
}.

Definition setCurrentStep (x : option Node) (s : State) : State :=
  {| guide := guide s; version := version s; session := session s;
     currentStep := x; stepIndex := stepIndex s; answers := answers s;
     customerInfo := customerInfo s; showEscalation := showEscalation s;
     escalationMessage := escalationMessage s; loading := loading s |}.

Definition setStepIndex (x : nat) (s : State) : State :=
  {| guide := guide s; version := version s; session := session s;
     currentStep := currentStep s; stepIndex := x; answers := answers s;
     customerInfo := customerInfo s; showEscalation := showEscalation s;
     escalationMessage := escalationMessage s; loading := loading s |}.

Definition setAnswers (f : gmap string string -> gmap string string) (s : State) : State :=
  {| guide := guide s; version := version s; session := session s;
     currentStep := currentStep s; stepIndex := stepIndex s; answers := f (answers s);
     customerInfo := customerInfo s; showEscalation := showEscalation s;
     escalationMessage := escalationMessage s; loading := loading s |}.

Definition setShowEscalation (x : bool) (s : State) : State :=
  {| guide := guide s; version := version s; session := session s;
     currentStep := currentStep s; stepIndex := stepIndex s; answers := answers s;
     customerInfo := customerInfo s; showEscalation := x;
     escalationMessage := escalationMessage s; loading := loading s |}.

Definition setEscalationMessage (x : string) (s : State) : State :=
  {| guide := guide s; version := version s; session := session s;
     currentStep := currentStep s; stepIndex := stepIndex s; answers := answers s;
     customerInfo := customerInfo s; showEscalation := showEscalation s;
     escalationMessage := x; loading := loading s |}.

(** [node => node.data?.slug === stepSlug || node.id === stepSlug] *)
Definition matches (stepSlug : string) (node : Node) : bool :=
  strict_eq (data_field slug node) stepSlug || strict_eq (node_id node) stepSlug.

(** The index computed by [loadGuideAndStartSession] (lines 63-70), the
    spec's resolveStepIndex. *)
Definition targetStepIndex (ns : list Node) (stepSlug : option string) : nat :=
  match stepSlug with
  | Some s =>
      if JS.truthy s then
        let i := findIndex (matches s) ns in
        Z.to_nat (if (i =? -1)%Z then 0%Z else i)
      else 0
  | None => 0
  end.

(** Initialisation of the first step, the end of [loadGuideAndStartSession]. *)
Definition initStep (versionData : Version) (stepSlug : option string) : M State unit :=
  if (0 <? length (nodes versionData))%nat then
    let t := targetStepIndex (nodes versionData) stepSlug in
    run set_state (setStepIndex t) ;;
    set_state (setCurrentStep (nodes versionData !! t))
  else ret tt.

Definition handleInputChange (inputId value : string) : M State unit :=
  set_state (setAnswers (fun prev => <[inputId := value]> prev)).

(** [currentStep.data?.inputs?.filter(input => input.required) || []] *)
Definition requiredInputs (step : Node) : list Input :=
  match data_field inputs step with
  | Some l => List.filter input_required l
  | None => []
  end.

(** The required inputs without an answer that is not blank. *)
Definition unanswered (step : Node) (ans : gmap string string) : list Input :=
  List.filter (fun input => negb (JS.truthy_trim (ans !! input_id input)))
              (requiredInputs step).

(** The names that the answer object, a plain object, inherits from
    [Object.prototype]: reading one of them while it has no answer yields a
    function or the prototype itself instead of [undefined]. *)
Definition inherited (key : string) : bool :=
  existsb (String.eqb key)
    ["constructor"; "__proto__"; "hasOwnProperty"; "isPrototypeOf";
     "propertyIsEnumerable"; "toLocaleString"; "toString"; "valueOf";
     "__defineGetter__"; "__defineSetter__"; "__lookupGetter__"; "__lookupSetter__"].

(** [!answers[input.id]?.trim()]: an answer is a string; an inherited
    value has no [trim], so the call throws a TypeError. *)
Definition is_missing (ans : gmap string string) (input : Input) : Result bool :=
  match ans !! input_id input with
  | Some a => Ok (negb (JS.truthy (JS.trim a)))
  | None => if inherited (input_id input) then Throw TypeError else Ok true
  end.

(** [requiredInputs.filter(input => !answers[input.id]?.trim())] *)
Definition missingInputs (step : Node) (ans : gmap string string) :
    Result (list Input) :=
  filter_throwing (is_missing ans) (requiredInputs step).

Definition completionCard : Node :=
  {| node_id := None;
     node_data := Some
       {| slug := None; node_type := Some "completion";
          title := Some "Thank you!";
          content := Some "You have successfully completed this guided flow. If you need further assistance, please contact support.";
          visibility := None; inputs := None;
          escalationEnabled := false; escalationCategory := None |} |}.

Definition completeSession (st : State) : M State unit :=
  try_catch
    (await s <- deref (session st) ;;
     run axios (PostSessionComplete (session_id s)) ;;
     run axios (PostEvent {| ev_session_id := session_id s;
                             ev_step_id := None;
                             ev_action := "session_completed";
                             ev_props := PropsCompleted (stepIndex st + 1)
                                           (Some "customer_completed") |}) ;;
     set_state (setCurrentStep (Some completionCard)))
    (fun _ => toast (ToastError "Failed to complete session")).

Definition handleStepComplete (st : State) : M State unit :=
  try_catch
    (await step <- deref (currentStep st) ;;
     await missing <- of_result (missingInputs step (answers st)) ;;
     if (0 <? length missing)%nat then
       toast (ToastError "Please fill in all required fields")
     else
       await s <- deref (session st) ;;
       run axios (PostEvent {| ev_session_id := session_id s;
                               ev_step_id := node_id step;
                               ev_action := "step_completed";
                               ev_props := PropsAnswers (answers st) |}) ;;
       let nextIndex := stepIndex st + 1 in
       await v <- deref (version st) ;;
       let ns := List.filter not_agent_only (nodes v) in
       if (nextIndex <? length ns)%nat then
         run set_state (setStepIndex nextIndex) ;;
         run set_state (setCurrentStep (ns !! nextIndex)) ;;
         set_state (setAnswers (fun _ => ∅))
       else
         completeSession st)
    (fun _ => toast (ToastError "Failed to complete step")).

(** The record built by [handleEscalation] (lines 163-174). *)
Definition escalationData (st : State) (s : Session) (g : Guide) (step : Node)
    (v : Version) : EscalationData :=
  {| esc_session_id := session_id s;
     esc_guide_id := guide_id g;
     esc_step_id := node_id step;
     esc_category := JS.or_else (data_field escalationCategory step) "general";
     esc_message := escalationMessage st;
     history_snapshot :=
       map (fun node => StepAnswers (data_field title node) (answers st))
           (take (stepIndex st + 1) (nodes v));
     contact := CustomerContact (customerInfo st) |}.

Definition handleEscalation (st : State) : M State unit :=
  try_catch
    (if negb (JS.truthy (JS.trim (escalationMessage st))) then
       toast (ToastError "Please describe your issue")
     else
       await s <- deref (session st) ;;
       await g <- deref (guide st) ;;
       await step <- deref (currentStep st) ;;
       await v <- deref (version st) ;;
       let d := escalationData st s g step v in
       run axios (PostEscalation d) ;;
       run axios (PostEvent {| ev_session_id := session_id s;
                               ev_step_id := node_id step;
                               ev_action := "escalation_submitted";
                               ev_props := PropsEscalation d |}) ;;
       run set_state (setShowEscalation false) ;;
       run set_state (setEscalationMessage "") ;;
       toast (ToastSuccess "Your issue has been escalated to our support team. They will contact you soon."))
    (fun _ => toast (ToastError "Failed to submit escalation")).

(** What the component renders (lines 194-217 and 243): the spinner, the
    not-found card, or the flow, which shows either a step or the
    completion card. *)
Inductive View :=
| Loading
| NotFound
| AtStep (index : nat) (step : Node)
| Completed.

Definition isCompletion (step : Node) : bool :=
  strict_eq (data_field node_type step) "completion".

Definition render (st : State) : View :=
  if loading st then Loading
  else match guide st, currentStep st with
       | Some _, Some step =>
           if isCompletion step then Completed else AtStep (stepIndex st) step
       | _, _ => NotFound
       end.

(** "Step N of M" (line 225): [M]. *)
Definition denominator (v : Version) : nat :=
  length (List.filter not_agent_only (nodes v)).

End CustomerWidget.

(** ** The agent portal (AgentPortal component) *)
Module AgentPortal.

(** [user] is the value of [useAuth()]. *)
Record State := {
  user : option User;
  currentGuide : option Guide;
  currentVersion : option Version;
  session : option Session;
  currentStep : option Node;
  stepIndex : nat;
  answers : gmap string string;
  crmData : CrmData;
  loading : bool
}.

Definition setCurrentStep (x : option Node) (s : State) : State :=
  {| user := user s; currentGuide := currentGuide s;
     currentVersion := currentVersion s; session := session s;
     currentStep := x; stepIndex := stepIndex s; answers := answers s;
     crmData := crmData s; loading := loading s |}.

Definition setStepIndex (x : nat) (s : State) : State :=
  {| user := user s; currentGuide := currentGuide s;
     currentVersion := currentVersion s; session := session s;
     currentStep := currentStep s; stepIndex := x; answers := answers s;
     crmData := crmData s; loading := loading s |}.

Definition setAnswers (f : gmap string string -> gmap string string) (s : State) : State :=
  {| user := user s; currentGuide := currentGuide s;
     currentVersion := currentVersion s; session := session s;
     currentStep := currentStep s; stepIndex := stepIndex s; answers := f (answers s);
     crmData := crmData s; loading := loading s |}.

Definition setCrmData (f : CrmData -> CrmData) (s : State) : State :=
  {| user := user s; currentGuide := currentGuide s;
     currentVersion := currentVersion s; session := session s;
     currentStep := currentStep s; stepIndex := stepIndex s; answers := answers s;
     crmData := f (crmData s); loading := loading s |}.

Definition handleCrmSubmit (st : State) : M State unit :=
  if negb (JS.truthy (JS.trim (crm_id (crmData st)))) then
    toast (ToastError "CRM ID is required")
  else
    try_catch
      (await s <- deref (session st) ;;
       await u <- deref (user st) ;;
       run axios (PatchCrmContext (session_id s) (crmData st) (user_id u) (user_email u)) ;;
       run axios (PostEvent {| ev_session_id := session_id s;
                               ev_step_id := None;
                               ev_action := "crm_form_submitted";
                               ev_props := PropsCrm (crmData st) |}) ;;
       toast (ToastSuccess "CRM information saved"))
      (fun _ => toast (ToastError "Failed to save CRM data")).

Definition handleInputChange (inputId value : string) : M State unit :=
  set_state (setAnswers (fun prev => <[inputId := value]> prev)).

(** The note is copied to the clipboard; the toast shown once the
    clipboard promise resolves is not part of the handler's own run. *)
Definition generateCrmNote (st : State) : M State unit :=
  await g <- deref (currentGuide st) ;;
  await u <- deref (user st) ;;
  await s <- deref (session st) ;;
  clipboard_writeText
    {| note_guide := guide_title g; note_agent := user_email u;
       note_session := session_id s; note_crm_id := crm_id (crmData st);
       note_steps := stepIndex st + 1; note_answers := answers st |}.

Definition completeSession (st : State) : M State unit :=
  try_catch
    (await s <- deref (session st) ;;
     run axios (PostSessionComplete (session_id s)) ;;
     run axios (PostEvent {| ev_session_id := session_id s;
                             ev_step_id := None;
                             ev_action := "session_completed";
                             ev_props := PropsCompleted (stepIndex st + 1) None |}) ;;
     run toast (ToastSuccess "Session completed successfully!") ;;
     generateCrmNote st)
    (fun _ => toast (ToastError "Failed to complete session")).

Definition handleStepComplete (st : State) : M State unit :=
  try_catch
    (await s <- deref (session st) ;;
     await step <- deref (currentStep st) ;;
     run axios (PostEvent {| ev_session_id := session_id s;
                             ev_step_id := node_id step;
                             ev_action := "step_completed";
                             ev_props := PropsAnswers (answers st) |}) ;;
     let nextIndex := stepIndex st + 1 in
     await v <- deref (currentVersion st) ;;
     let ns := nodes v in
     if (nextIndex <? length ns)%nat then
       run set_state (setStepIndex nextIndex) ;;
       run set_state (setCurrentStep (ns !! nextIndex)) ;;
       set_state (setAnswers (fun _ => ∅))
     else
       completeSession st)
    (fun _ => toast (ToastError "Failed to complete step")).

(** [`Agent escalation from step: ${currentStep.data?.title}`] *)
Definition escalationMessage (step : Node) : string :=
  String.append "Agent escalation from step: "
    match data_field title step with
    | Some t => t
    | None => "undefined"
    end.

Definition escalationData (st : State) (s : Session) (g : Guide) (step : Node)
    (v : Version) (u : User) : EscalationData :=
  {| esc_session_id := session_id s;
     esc_guide_id := guide_id g;
     esc_step_id := node_id step;
     esc_category := JS.or_else (data_field escalationCategory step) "general";
     esc_message := escalationMessage step;
     history_snapshot := map RawNode (take (stepIndex st + 1) (nodes v));
     contact := AgentContact (user_email u) (crm_id (crmData st)) |}.

Definition handleEscalation (st : State) : M State unit :=
  try_catch
    (await s <- deref (session st) ;;
     await g <- deref (currentGuide st) ;;
     await step <- deref (currentStep st) ;;
     await v <- deref (currentVersion st) ;;
     await u <- deref (user st) ;;
     run axios (PostEscalation (escalationData st s g step v u)) ;;
     toast (ToastSuccess "Escalation submitted successfully"))
    (fun _ => toast (ToastError "Failed to submit escalation")).

(** [currentVersion?.graph?.nodes?.length || 0], used by "Step N of M"
    (line 358) and by the navigation (line 430). *)
Definition denominator (st : State) : nat :=
  match currentVersion st with
  | Some v => length (nodes v)
  | None => 0
  end.

(** The step card with its navigation is rendered when
    [currentStep && crmData.crm_id] (line 350). *)
Definition navigation_rendered (st : State) : bool :=
  match currentStep st with
  | Some _ => JS.truthy (crm_id (crmData st))
  | None => false
  end.

(** The click handler of the one navigation button (lines 430-446):
    "Next Step" runs [handleStepComplete] while
    [stepIndex < length - 1], otherwise the button is
    "Complete & Generate CRM Note" and runs [completeSession]. *)
Definition navigationClick (st : State) : M State unit :=
  if (Z.of_nat (stepIndex st) <? Z.of_nat (denominator st) - 1)%Z then
    handleStepComplete st
  else
    completeSession st.

End AgentPortal.

(** ** The authentication context (AuthProvider) *)
Module AuthContext.

(** [stored] is [localStorage.getItem('token')]. *)
Record State := {
  user : option User;
  loading : bool;
  token : option string;
  stored : option string
}.

(** A response of the backend as an operation of the provider sees it. *)
Inductive Response (A : Type) :=
| Fulfilled (data : A)
| Failed (status : option nat) (detail : option string).
Arguments Fulfilled {A} data.
Arguments Failed {A} status detail.

Inductive LoginResult :=
| Success
| Failure (error : string).

Definition logout : M State unit :=
  run set_state (fun s => {| user := user s; loading := loading s;
                             token := token s; stored := None |}) ;;
  run set_state (fun s => {| user := user s; loading := loading s;
                             token := None; stored := stored s |}) ;;
  run set_state (fun s => {| user := None; loading := loading s;
                             token := token s; stored := stored s |}) ;;
  toast (ToastSuccess "Logged out successfully").

(** The rejection handler of the response interceptor; it ends with
    [Promise.reject(error)]. *)
Definition responseInterceptor {A} (status : option nat) : M State A :=
  run (if decide (status = Some 401) then
         run logout ;;
         toast (ToastError "Session expired. Please login again.")
       else ret tt) ;;
  throw (AxiosError status).

(** [await axios.<method>(...)] for a request that was issued when the
    provider's effect had installed the interceptor, as the requests of
    [login], [register] and [loadUser] are; its response is [resp]. *)
Definition request {A} (resp : Response A) : M State A :=
  match resp with
  | Fulfilled d => ret d
  | Failed status _ => responseInterceptor status
  end.

(** [error.response?.data?.detail] of the response that was rejected. *)
Definition detail_of {A} (resp : Response A) : option string :=
  match resp with
  | Fulfilled _ => None
  | Failed _ d => d
  end.

Definition loadUser (resp : Response User) (st : State) : M State unit :=
  run (if JS.truthy (default "" (token st)) then
         try_catch
           (await u <- request resp ;;
            set_state (fun s => {| user := Some u; loading := loading s;
                                   token := token s; stored := stored s |}))
           (fun _ =>
              run set_state (fun s => {| user := user s; loading := loading s;
                                         token := token s; stored := None |}) ;;
              set_state (fun s => {| user := user s; loading := loading s;
                                     token := None; stored := stored s |}))
       else ret tt) ;;
  set_state (fun s => {| user := user s; loading := false;
                         token := token s; stored := stored s |}).

(** [login] answers [{success: true}] or [{success: false, error}]; the
    response data are the access token and the user. *)
Definition login (resp : Response (string * User)) : M State LoginResult :=
  try_catch
    (await r <- request resp ;;
     run set_state (fun s => {| user := user s; loading := loading s;
                                token := token s; stored := Some (fst r) |}) ;;
     run set_state (fun s => {| user := user s; loading := loading s;
                                token := Some (fst r); stored := stored s |}) ;;
     run set_state (fun s => {| user := Some (snd r); loading := loading s;
                                token := token s; stored := stored s |}) ;;
     run toast (ToastSuccess (String.append "Welcome back, "
                                 (String.append (user_email (snd r)) "!"))) ;;
     ret Success)
    (fun _ =>
       let message := JS.or_else (detail_of resp) "Login failed" in
       run toast (ToastError message) ;;
       ret (Failure message)).

(** The argument of [hasRole]: one role or an array of roles. *)
Inductive RoleArg :=
| OneRole (role : string)
| Roles (roles : list string).

(** [Array.prototype.includes] on strings. *)
Definition includes (l : list string) (x : string) : bool :=
  existsb (fun y => String.eqb y x) l.

Definition hasRole (u : option User) (role : RoleArg) : bool :=
  match u with
  | None => false
  | Some usr =>
      match role with
      | Roles rs => includes rs (user_role usr)
      | OneRole r => String.eqb (user_role usr) r
      end
  end.

Definition isAdmin (u : option User) : bool := hasRole u (OneRole "admin").
Definition isAgent (u : option User) : bool := hasRole u (Roles ["agent"; "admin"]).
Definition isCustomer (u : option User) : bool := hasRole u (OneRole "customer").

End AuthContext.

(** ** Transitions of the two runtimes

    A transition is one run of an event handler on the state that was
    rendered, followed by the state updates it queued. *)

Definition setCustomerInfo (f : CustomerInfo -> CustomerInfo)
    (s : CustomerWidget.State) : CustomerWidget.State :=
  {| CustomerWidget.guide := CustomerWidget.guide s;
     CustomerWidget.version := CustomerWidget.version s;
     CustomerWidget.session := CustomerWidget.session s;
     CustomerWidget.currentStep := CustomerWidget.currentStep s;
     CustomerWidget.stepIndex := CustomerWidget.stepIndex s;
     CustomerWidget.answers := CustomerWidget.answers s;
     CustomerWidget.customerInfo := f (CustomerWidget.customerInfo s);
     CustomerWidget.showEscalation := CustomerWidget.showEscalation s;
     CustomerWidget.escalationMessage := CustomerWidget.escalationMessage s;
     CustomerWidget.loading := CustomerWidget.loading s |}.

Inductive customer_step (b : Backend) :
    Ctx CustomerWidget.State -> Ctx CustomerWidget.State -> Prop :=
| customer_input inputId value c :
    customer_step b c (snd (CustomerWidget.handleInputChange inputId value b c))
| customer_advance c :
    customer_step b c (snd (CustomerWidget.handleStepComplete (ui c) b c))
| customer_escalate c :
    customer_step b c (snd (CustomerWidget.handleEscalation (ui c) b c))
| customer_modal x c :
    customer_step b c (snd (set_state (CustomerWidget.setShowEscalation x) b c))
| customer_message m c :
    customer_step b c (snd (set_state (CustomerWidget.setEscalationMessage m) b c))
| customer_contact f c :
    customer_step b c (snd (set_state (setCustomerInfo f) b c)).

Inductive agent_step (b : Backend) :
    Ctx AgentPortal.State -> Ctx AgentPortal.State -> Prop :=
| agent_input inputId value c :
    agent_step b c (snd (AgentPortal.handleInputChange inputId value b c))
| agent_navigation c :
    agent_step b c (snd (AgentPortal.navigationClick (ui c) b c))
| agent_escalate c :
    agent_step b c (snd (AgentPortal.handleEscalation (ui c) b c))
| agent_crm_edit f c :
    agent_step b c (snd (set_state (AgentPortal.setCrmData f) b c))
| agent_crm_submit c :
    agent_step b c (snd (AgentPortal.handleCrmSubmit (ui c) b c)).

(** ** The specification's wording, for comparison with the code *)

(** The spec's visibleSteps for the customer: the sequence "with exactly
    the steps having visibility == agent removed". *)
Inductive removes_agent_only : list Node -> list Node -> Prop :=
| rao_nil : removes_agent_only [] []
| rao_keep n G V :
    data_field visibility n <> Some "agent" ->
    removes_agent_only G V -> removes_agent_only (n :: G) (n :: V)
| rao_drop n G V :
    data_field visibility n = Some "agent" ->
    removes_agent_only G V -> removes_agent_only (n :: G) V.

(** The spec's resolveStepIndex: the position of the first matching step
    within [visibleSteps], index 0 when there is none. *)
Definition spec_resolveStepIndex (ns : list Node) (r : Role) (identifier : string) : nat :=
  match list_find (fun n => CustomerWidget.matches identifier n = true) (visibleSteps ns r) with
  | Some (i, _) => i
  | None => 0
  end.

(** The answers recorded for a step: those of the last [step_completed]
    event logged for it. *)
Definition recordedAnswers (w : World) (step : Node) : option (gmap string string) :=
  match List.filter (fun e => bool_decide (ev_step_id e = node_id step))
                    (events_of "step_completed" w) with
  | [] => None
  | e :: es =>
      match ev_props (List.last es e) with
      | PropsAnswers a => Some a
      | _ => None
      end
  end.

(** The spec's escalation snapshot of a session at index [k]: the visible
    steps 0..k, the earlier ones with the answers recorded for them, the
    current one with the answer map in progress. *)
Definition spec_history_snapshot (w : World) (visible : list Node) (k : nat)
    (current : gmap string string) : list HistoryEntry :=
  imap (fun i step =>
          StepAnswers (data_field title step)
            (if (i <? k)%nat then default ∅ (recordedAnswers w step) else current))
       (take (k + 1) visible).

(** ** Sample graphs and states *)

Definition mkNode (id vis : string) (ins : list Input) : Node :=
  {| node_id := Some id;
     node_data := Some
       {| slug := None;
          node_type := Some (match ins with [] => "instruction" | _ => "question" end);
          title := Some (String.append "Step " id); content := None;
          visibility := Some vis; inputs := Some ins;
          escalationEnabled := true; escalationCategory := None |} |}.

Definition stepA : Node := mkNode "a" "customer" [{| input_id := "q0"; input_required := false |}].
Definition stepB : Node := mkNode "b" "customer" [{| input_id := "q1"; input_required := true |}].
Definition stepX : Node := mkNode "x" "agent" [].

Definition sampleGuide : Guide :=
  {| guide_id := "g1"; guide_slug := "reset"; guide_title := "Reset a password" |}.
Definition sampleSession : Session := {| session_id := "s1" |}.
Definition sampleUser : User :=
  {| user_id := "u1"; user_email := "agent@example.com"; user_role := "agent" |}.

Definition customerAt (ns : list Node) (k : nat) (step : option Node)
    (ans : gmap string string) (msg : string) : CustomerWidget.State :=
  {| CustomerWidget.guide := Some sampleGuide;
     CustomerWidget.version := Some {| nodes := ns |};
     CustomerWidget.session := Some sampleSession;
     CustomerWidget.currentStep := step;
     CustomerWidget.stepIndex := k;
     CustomerWidget.answers := ans;
     CustomerWidget.customerInfo := {| email := ""; phone := "" |};
     CustomerWidget.showEscalation := false;
     CustomerWidget.escalationMessage := msg;
     CustomerWidget.loading := false |}.

Definition agentAt (ns : list Node) (k : nat) (step : option Node)
    (ans : gmap string string) (crm : string) : AgentPortal.State :=
  {| AgentPortal.user := Some sampleUser;
     AgentPortal.currentGuide := Some sampleGuide;
     AgentPortal.currentVersion := Some {| nodes := ns |};
     AgentPortal.session := Some sampleSession;
     AgentPortal.currentStep := step;
     AgentPortal.stepIndex := k;
     AgentPortal.answers := ans;
     AgentPortal.crmData := {| crm_id := crm; crm_email := ""; account_id := ""; ticket_id := "" |};
     AgentPortal.loading := false |}.

Definition start {S} (st : S) : Ctx S := {| ui := st; world := empty_world |}.

(** Runs a handler on the state that is rendered in the context. *)
Definition click {S} (h : S -> M S unit) (b : Backend) (c : Ctx S) : Ctx S :=
  snd (h (ui c) b c).

(** The client is logged out: no token in the state or in the storage and
    no current user. *)
Definition logged_out (s : AuthContext.State) : Prop :=
  AuthContext.token s = None /\ AuthContext.stored s = None /\ AuthContext.user s = None.

(** The bodies of the two notifications of an advance. *)
Definition stepCompleted (s : Session) (step : Node) (ans : gmap string string) : Event :=
  {| ev_session_id := session_id s; ev_step_id := node_id step;
     ev_action := "step_completed"; ev_props := PropsAnswers ans |}.

Definition sessionCompleted (s : Session) (total : nat) (kind : option string) : Event :=
  {| ev_session_id := session_id s; ev_step_id := None;
     ev_action := "session_completed"; ev_props := PropsCompleted total kind |}.

Definition escalationSubmitted (s : Session) (step : Node) (d : EscalationData) : Event :=
  {| ev_session_id := session_id s; ev_step_id := node_id step;
     ev_action := "escalation_submitted"; ev_props := PropsEscalation d |}.

(** The title of a snapshot entry of the customer widget. *)
Definition entry_step (e : HistoryEntry) : option string :=
  match e with
  | StepAnswers t _ => t
  | RawNode n => data_field title n
  end.

(** ** The request interceptor and the other operations of the provider *)
Module AuthRequests.

(** The part of a request config that the interceptor touches:
    [config.url] and [config.headers.Authorization]. *)
Record Config := {
  url : string;
  authorization : option string
}.

(** [s.startsWith(p)] *)
Definition startsWith (s p : string) : bool := String.prefix p s.

(** [process.env.REACT_APP_BACKEND_URL || 'http://localhost:8001'] *)
Definition API_BASE_URL (env : option string) : string :=
  JS.or_else env "http://localhost:8001".

Definition requestInterceptor (token : option string) (base : string)
    (config : Config) : Config :=
  let config1 :=
    if JS.truthy (default "" token) then
      {| url := url config;
         authorization := Some (String.append "Bearer " (default "" token)) |}
    else config in
  if negb (startsWith (url config1) "http") then
    {| url := String.append base
                (String.append (if startsWith (url config1) "/" then "" else "/")
                               (url config1));
       authorization := authorization config1 |}
  else config1.

Definition register (resp : AuthContext.Response unit) :
    M AuthContext.State AuthContext.LoginResult :=
  try_catch
    (run AuthContext.request resp ;;
     run toast (ToastSuccess "Account created successfully! Please login.") ;;
     ret AuthContext.Success)
    (fun _ =>
       let message := JS.or_else (AuthContext.detail_of resp) "Registration failed" in
       run toast (ToastError message) ;;
       ret (AuthContext.Failure message)).

(** One operation of the provider: a login, a registration, a logout, the
    user lookup of the effect, or a request of any page. *)
Inductive auth_step : Ctx AuthContext.State -> Ctx AuthContext.State -> Prop :=
| auth_login resp b c : auth_step c (snd (AuthContext.login resp b c))
| auth_register resp b c : auth_step c (snd (register resp b c))
| auth_logout b c : auth_step c (snd (AuthContext.logout b c))
| auth_loadUser resp b c : auth_step c (snd (AuthContext.loadUser resp (ui c) b c))
| auth_request (A : Type) (resp : AuthContext.Response A) b c :
    auth_step c (snd (AuthContext.request resp b c)).

End AuthRequests.

(** ** The route guard (ProtectedRoute component), the route table of App
    and the links of Navbar *)
Module ProtectedRoute.

Inductive Rendered :=
| Spinner
| NavigateToLogin
| AccessDenied
| Children.

(** Truthiness of the [requiredRole] prop: [null] and the empty string
    are falsy, an array always is truthy. *)
Definition required (requiredRole : option AuthContext.RoleArg) : bool :=
  match requiredRole with
  | None => false
  | Some (AuthContext.OneRole r) => JS.truthy r
  | Some (AuthContext.Roles _) => true
  end.

Definition hasRequiredRole (usr : User) (requiredRole : AuthContext.RoleArg) : bool :=
  match requiredRole with
  | AuthContext.Roles rs => AuthContext.includes rs (user_role usr)
  | AuthContext.OneRole r => String.eqb (user_role usr) r
  end.

Definition ProtectedRoute (user : option User) (loading : bool)
    (requiredRole : option AuthContext.RoleArg) : Rendered :=
  if loading then Spinner
  else match user with
       | None => NavigateToLogin
       | Some usr =>
           match requiredRole with
           | Some r =>
               if required requiredRole then
                 if negb (hasRequiredRole usr r) then AccessDenied else Children
               else Children
           | None => Children
           end
       end.

(** How App mounts a path: public, or inside a ProtectedRoute with its
    [requiredRole].  The redirect from "/" to "/dashboard" is not a page
    and is left out of the table. *)
Inductive Guard :=
| Public
| Protected (requiredRole : option AuthContext.RoleArg).

Definition routes : list (string * Guard) :=
  [ ("/login", Public);
    ("/widget/:guideSlug", Public);
    ("/widget/:guideSlug/:stepSlug", Public);
    ("/dashboard", Protected None);
    ("/studio", Protected (Some (AuthContext.OneRole "admin")));
    ("/studio/:guideId", Protected (Some (AuthContext.OneRole "admin")));
    ("/agent", Protected (Some (AuthContext.Roles ["agent"; "admin"])));
    ("/agent/:guideSlug", Protected (Some (AuthContext.Roles ["agent"; "admin"])));
    ("/agent/:guideSlug/:stepSlug", Protected (Some (AuthContext.Roles ["agent"; "admin"])));
    ("/analytics", Protected (Some (AuthContext.OneRole "admin"))) ].

Definition guard_of (path : string) : option Guard :=
  option_map snd (List.find (fun r => String.eqb (fst r) path) routes).

(** What a user gets on a path of the table. *)
Definition visit (user : option User) (loading : bool) (path : string) : option Rendered :=
  match guard_of path with
  | Some Public => Some Children
  | Some (Protected r) => Some (ProtectedRoute user loading r)
  | None => None
  end.

Record NavItem := {
  name : string;
  href : string;
  roles : list string
}.

Definition navigation : list NavItem :=
  [ {| name := "Dashboard"; href := "/dashboard"; roles := ["admin"; "agent"] |};
    {| name := "Authoring Studio"; href := "/studio"; roles := ["admin"] |};
    {| name := "Agent Portal"; href := "/agent"; roles := ["agent"; "admin"] |};
    {| name := "Analytics"; href := "/analytics"; roles := ["admin"] |} ].

(** [navigation.filter(item => item.roles.includes(user?.role))] *)
Definition filteredNavigation (user : option User) : list NavItem :=
  List.filter (fun item =>
                 match user with
                 | Some usr => AuthContext.includes (roles item) (user_role usr)
                 | None => false
                 end) navigation.

(** The targets of the links of the bar: the logo, which leads to the
    dashboard, and the items of [filteredNavigation] (the desktop and the
    mobile menu list the same items); [if (!user) return null]. *)
Definition Navbar (user : option User) : list string :=
  match user with
  | None => []
  | Some _ => "/dashboard" :: map href (filteredNavigation user)
  end.

End ProtectedRoute.

(** ** Loading a guide

    The requests of the loading functions return data.  The response of
    each is given; the request is recorded in [fetched].  A rejected
    response passes the response interceptor of [AuthContext] when the
    interceptors were registered as the request was issued. *)

(** An element of the answer of [GET /api/guides]. *)
Record GuideEntry := {
  entry : Guide;
  current_version_id : option string
}.

Inductive Fetch :=
| GetGuides
| GetVersion (guide version : string)
| PostSession (role : string) (guide_version_id : string).

(** The page state together with the guide list of the agent portal, the
    data requests issued so far and the state of the AuthProvider above
    the page. *)
Record Loader (S : Type) := {
  page : S;
  guides : list GuideEntry;
  fetched : list Fetch;
  provider : AuthContext.State
}.
Arguments page {S} l.
Arguments guides {S} l.
Arguments fetched {S} l.
Arguments provider {S} l.
Arguments Build_Loader {S} page guides fetched provider.

Definition set_page {S} (f : S -> S) : M (Loader S) unit :=
  set_state (fun l => {| page := f (page l); guides := guides l; fetched := fetched l;
                         provider := provider l |}).

Definition setGuides {S} (g : list GuideEntry) : M (Loader S) unit :=
  set_state (fun l => {| page := page l; guides := g; fetched := fetched l;
                         provider := provider l |}).

(** Runs a computation of the page inside the loader. *)
Definition on_page {S A} (m : M S A) : M (Loader S) A :=
  fun b c =>
    let r := m b {| ui := page (ui c); world := world c |} in
    (fst r, {| ui := {| page := ui (snd r); guides := guides (ui c);
                        fetched := fetched (ui c); provider := provider (ui c) |};
               world := world (snd r) |}).

(** Runs an operation of the provider inside the loader. *)
Definition on_provider {S A} (m : M AuthContext.State A) : M (Loader S) A :=
  fun b c =>
    let r := m b {| ui := provider (ui c); world := world c |} in
    (fst r, {| ui := {| page := page (ui c); guides := guides (ui c);
                        fetched := fetched (ui c); provider := ui (snd r) |};
               world := world (snd r) |}).

(** [await axios.get(...)] or [await axios.post(...)] whose [response.data]
    is used.  The interceptor chain of a request is fixed when the request
    is issued: [registered] tells whether the provider's effect
    (AuthContext.js, lines 23-57) had registered its interceptors by then.
    If so a rejection passes the response interceptor before it is thrown
    to the caller. *)
Definition fetch {S A} (registered : bool) (f : Fetch) (resp : AuthContext.Response A) :
    M (Loader S) A :=
  run set_state (fun l => {| page := page l; guides := guides l;
                             fetched := fetched l ++ [f]; provider := provider l |}) ;;
  if registered then on_provider (AuthContext.request resp)
  else match resp with
       | AuthContext.Fulfilled d => ret d
       | AuthContext.Failed status _ => throw (AxiosError status)
       end.

(** [try { m } finally { f }] for a body that catches its own exceptions. *)
Definition try_finally {S A} (m : M S A) (f : M S unit) : M S A :=
  fun b c =>
    match m b c with
    | (r, c') =>
        match f b c' with
        | (Ok _, c'') => (r, c'')
        | (Throw e, c'') => (Throw e, c'')
        end
    end.

(** [data.filter(g => g.current_version_id)] *)
Definition published (data : list GuideEntry) : list GuideEntry :=
  List.filter (fun g => JS.truthy (default "" (current_version_id g))) data.

(** [guides.find(g => g.slug === guideSlug)] *)
Definition find_guide (guideSlug : string) (l : list GuideEntry) : option GuideEntry :=
  List.find (fun g => String.eqb (guide_slug (entry g)) guideSlug) l.

Module CustomerLoad.
Import CustomerWidget.

Definition setGuide (x : option Guide) (s : State) : State :=
  {| guide := x; version := version s; session := session s;
     currentStep := currentStep s; stepIndex := stepIndex s; answers := answers s;
     customerInfo := customerInfo s; showEscalation := showEscalation s;
     escalationMessage := escalationMessage s; loading := loading s |}.

Definition setVersion (x : option Version) (s : State) : State :=
  {| guide := guide s; version := x; session := session s;
     currentStep := currentStep s; stepIndex := stepIndex s; answers := answers s;
     customerInfo := customerInfo s; showEscalation := showEscalation s;
     escalationMessage := escalationMessage s; loading := loading s |}.

Definition setSession (x : option Session) (s : State) : State :=
  {| guide := guide s; version := version s; session := x;
     currentStep := currentStep s; stepIndex := stepIndex s; answers := answers s;
     customerInfo := customerInfo s; showEscalation := showEscalation s;
     escalationMessage := escalationMessage s; loading := loading s |}.

Definition setLoading (x : bool) (s : State) : State :=
  {| guide := guide s; version := version s; session := session s;
     currentStep := currentStep s; stepIndex := stepIndex s; answers := answers s;
     customerInfo := customerInfo s; showEscalation := showEscalation s;
     escalationMessage := escalationMessage s; loading := x |}.

(** The function is started by the effect of the widget (lines 27-29) and
    issues its first request before it returns to the effect.
    [registered] tells whether the interceptors of the provider are
    registered at that moment.  The requests after the first [await] are
    issued when the effects of the commit have all run, with the
    interceptors registered. *)
Definition loadGuideAndStartSession (registered : bool) (guideSlug : string)
    (stepSlug : option string)
    (guidesResponse : AuthContext.Response (list GuideEntry))
    (versionResponse : AuthContext.Response Version)
    (sessionResponse : AuthContext.Response Session) : M (Loader State) unit :=
  try_finally
    (try_catch
       (run set_page (setLoading true) ;;
        await data <- fetch registered GetGuides guidesResponse ;;
        match find_guide guideSlug (published data) with
        | None => toast (ToastError "Guide not found")
        | Some targetGuide =>
            run set_page (setGuide (Some (entry targetGuide))) ;;
            let vid := default "" (current_version_id targetGuide) in
            await versionData <-
              fetch true (GetVersion (guide_id (entry targetGuide)) vid) versionResponse ;;
            run set_page (setVersion (Some versionData)) ;;
            await sessionData <- fetch true (PostSession "customer" vid) sessionResponse ;;
            run set_page (setSession (Some sessionData)) ;;
            on_page (initStep versionData stepSlug)
        end)
       (fun _ => toast (ToastError "Failed to load guide")))
    (set_page (setLoading false)).

(** The label of the navigation button (lines 346-351). *)
Definition buttonLabel (st : State) (v : Version) : string :=
  if (Z.of_nat (stepIndex st)
        <? Z.of_nat (length (List.filter not_agent_only (nodes v))) - 1)%Z
  then "Continue" else "Complete".

End CustomerLoad.

Module AgentLoad.
Import AgentPortal.

Definition setCurrentGuide (x : option Guide) (s : State) : State :=
  {| user := user s; currentGuide := x;
     currentVersion := currentVersion s; session := session s;
     currentStep := currentStep s; stepIndex := stepIndex s; answers := answers s;
     crmData := crmData s; loading := loading s |}.

Definition setCurrentVersion (x : option Version) (s : State) : State :=
  {| user := user s; currentGuide := currentGuide s;
     currentVersion := x; session := session s;
     currentStep := currentStep s; stepIndex := stepIndex s; answers := answers s;
     crmData := crmData s; loading := loading s |}.

Definition setSession (x : option Session) (s : State) : State :=
  {| user := user s; currentGuide := currentGuide s;
     currentVersion := currentVersion s; session := x;
     currentStep := currentStep s; stepIndex := stepIndex s; answers := answers s;
     crmData := crmData s; loading := loading s |}.

Definition setLoading (x : bool) (s : State) : State :=
  {| user := user s; currentGuide := currentGuide s;
     currentVersion := currentVersion s; session := session s;
     currentStep := currentStep s; stepIndex := stepIndex s; answers := answers s;
     crmData := crmData s; loading := x |}.

(** [createSession] reads [currentVersion] of the render [st] in which it
    was created.  It is called after the [await]s of [loadData], with
    the interceptors registered. *)
Definition createSession (st : State) (versionId : string)
    (sessionResponse : AuthContext.Response Session) : M (Loader State) unit :=
  try_catch
    (await sessionData <- fetch true (PostSession "agent" versionId) sessionResponse ;;
     run set_page (setSession (Some sessionData)) ;;
     match currentVersion st with
     | Some v =>
         if (0 <? length (nodes v))%nat then
           let firstNode := nodes v !! 0 in
           run set_page (setCurrentStep firstNode) ;;
           set_page (setStepIndex 0)
         else ret tt
     | None => ret tt
     end)
    (fun _ => toast (ToastError "Failed to create session")).

(** [loadData] is started by the effect of the portal (lines 31-33) and
    issues its first request before it returns to the effect;
    [registered] tells whether the interceptors of the provider are
    registered at that moment. *)
Definition loadData (registered : bool) (st : State) (guideSlug : option string)
    (guidesResponse : AuthContext.Response (list GuideEntry))
    (versionResponse : AuthContext.Response Version)
    (sessionResponse : AuthContext.Response Session) : M (Loader State) unit :=
  try_finally
    (try_catch
       (run set_page (setLoading true) ;;
        await data <- fetch registered GetGuides guidesResponse ;;
        let guidesData := published data in
        run setGuides guidesData ;;
        if JS.truthy (default "" guideSlug) then
          match find_guide (default "" guideSlug) guidesData with
          | Some g =>
              run set_page (setCurrentGuide (Some (entry g))) ;;
              let vid := default "" (current_version_id g) in
              await versionData <-
                fetch true (GetVersion (guide_id (entry g)) vid) versionResponse ;;
              run set_page (setCurrentVersion (Some versionData)) ;;
              createSession st vid sessionResponse
          | None => ret tt
          end
        else ret tt)
       (fun _ => toast (ToastError "Failed to load data")))
    (set_page (setLoading false)).

End AgentLoad.

(** ** The first commit of a widget page *)
Module Mount.

(** The widget below the provider, and whether the first effect of the
    provider (AuthContext.js, lines 23-57) has registered the
    interceptors. *)
Record App := {
  widget : Loader CustomerWidget.State;
  installed : bool
}.

(** Runs a computation of the widget and the provider inside the app. *)
Definition on_widget {A} (m : M (Loader CustomerWidget.State) A) : M App A :=
  fun b c =>
    let r := m b {| ui := widget (ui c); world := world c |} in
    (fst r, {| ui := {| widget := ui (snd r); installed := installed (ui c) |};
               world := world (snd r) |}).

Definition registerInterceptors : M App unit :=
  set_state (fun a => {| widget := widget a; installed := true |}).

(** The effects of the first commit at [/widget/:guideSlug], in the order
    in which they run, children first: the effect of CustomerWidget
    (part_000, lines 27-29), which starts [loadGuideAndStartSession], then
    the two effects of AuthProvider, the registration of the interceptors
    and [loadUser], which reads the token of the first render.  The
    responses are settled in the same order. *)
Definition mountWidget (guideSlug : string) (stepSlug : option string)
    (guidesResponse : AuthContext.Response (list GuideEntry))
    (versionResponse : AuthContext.Response Version)
    (sessionResponse : AuthContext.Response Session)
    (userResponse : AuthContext.Response User) : M App unit :=
  fun b c =>
    (run on_widget (CustomerLoad.loadGuideAndStartSession (installed (ui c))
                      guideSlug stepSlug guidesResponse versionResponse
                      sessionResponse) ;;
     run registerInterceptors ;;
     on_widget (on_provider (AuthContext.loadUser userResponse
                               (provider (widget (ui c)))))) b c.

End Mount.

(** [POST /api/sessions/:id/complete] requests of the log. *)
Definition completions_of (w : World) : list string :=
  omap (fun r => match fst r with
                 | PostSessionComplete sid => Some sid
                 | _ => None
                 end) (requests w).

(** ** Editing the graph (AuthoringStudio component) *)
Module AuthoringStudio.

Record Edge := {
  edge_id : string;
  source : string;
  target : string
}.

Record State := {
  nodes : list Node;
  edges : list Edge;
  selectedNode : option Node;
  showPropertiesPanel : bool
}.

(** [selectedNode?.id === nodeId] *)
Definition selected_is (sel : option Node) (nodeId : string) : bool :=
  match sel with
  | Some n => strict_eq (node_id n) nodeId
  | None => false
  end.

Definition deleteNode (nodeId : string) (s : State) : State :=
  {| nodes := List.filter (fun node => negb (strict_eq (node_id node) nodeId)) (nodes s);
     edges := List.filter (fun edge => negb (String.eqb (source edge) nodeId)
                                       && negb (String.eqb (target edge) nodeId))
                          (edges s);
     selectedNode := if selected_is (selectedNode s) nodeId then None else selectedNode s;
     showPropertiesPanel :=
       if selected_is (selectedNode s) nodeId then false else showPropertiesPanel s |}.

(** Every edge joins two nodes of the graph. *)
Definition edges_closed (s : State) : Prop :=
  forall e, In e (edges s) ->
    (exists n, In n (nodes s) /\ node_id n = Some (source e)) /\
    (exists n, In n (nodes s) /\ node_id n = Some (target e)).

End AuthoringStudio.

(** The step shown by the customer widget is the visible step at the
    index, or the completion card, and the index is within the visible
    sequence. *)
Definition customer_in_range (st : CustomerWidget.State) : Prop :=
  exists v, CustomerWidget.version st = Some v /\
    CustomerWidget.stepIndex st < length (visibleSteps (nodes v) customer) /\
    (CustomerWidget.currentStep st
       = visibleSteps (nodes v) customer !! CustomerWidget.stepIndex st \/
     CustomerWidget.currentStep st = Some CustomerWidget.completionCard).

(** The step shown by the agent portal is the node at the index. *)
Definition agent_in_range (st : AgentPortal.State) : Prop :=
  exists v, AgentPortal.currentVersion st = Some v /\
    AgentPortal.stepIndex st < length (nodes v) /\
    AgentPortal.currentStep st = nodes v !! AgentPortal.stepIndex st.

(** The state of the customer widget when it is mounted. *)
Definition emptyCustomer : CustomerWidget.State :=
  {| CustomerWidget.guide := None; CustomerWidget.version := None;
     CustomerWidget.session := None; CustomerWidget.currentStep := None;
     CustomerWidget.stepIndex := 0; CustomerWidget.answers := ∅;
     CustomerWidget.customerInfo := {| email := ""; phone := "" |};
     CustomerWidget.showEscalation := false; CustomerWidget.escalationMessage := "";
     CustomerWidget.loading := true |}.

(** The state of the agent portal when it is mounted for a user. *)
Definition emptyAgent (u : option User) : AgentPortal.State :=
  {| AgentPortal.user := u; AgentPortal.currentGuide := None;
     AgentPortal.currentVersion := None; AgentPortal.session := None;
     AgentPortal.currentStep := None; AgentPortal.stepIndex := 0;
     AgentPortal.answers := ∅;
     AgentPortal.crmData := {| crm_id := ""; crm_email := ""; account_id := "";
                               ticket_id := "" |};
     AgentPortal.loading := true |}.

(** The CRM form of the agent portal is rendered when
    [session && !crmData.crm_id] (line 287). *)
Definition crmForm_rendered (st : AgentPortal.State) : bool :=
  match AgentPortal.session st with
  | Some _ => negb (JS.truthy (crm_id (AgentPortal.crmData st)))
  | None => false
  end.

(** The session id that a request names. *)
Definition request_session (r : Request) : string :=
  match r with
  | PostEvent e => ev_session_id e
  | PostSessionComplete sid => sid
  | PostEscalation e => esc_session_id e
  | PatchCrmContext sid _ _ _ => sid
  end.

(** The action tag of an event request. *)
Definition request_action (r : Request) : option string :=
  match r with
  | PostEvent e => Some (ev_action e)
  | _ => None
  end.

(** A request of the log names the session [s], is of one of the given
    kinds and, if an event, carries one of the given tags. *)
Definition sent_for (s : option Session) (kind : Request -> bool) (tags : list string)
    (r : Request * Outcome) : Prop :=
  (exists x, s = Some x /\ request_session (fst r) = session_id x) /\
  kind (fst r) = true /\
  (forall a, request_action (fst r) = Some a -> In a tags).

Definition customer_kind (r : Request) : bool :=
  match r with
  | PatchCrmContext _ _ _ _ => false
  | _ => true
  end.

Definition agent_kind (r : Request) : bool := true.

(** The provider of a page that was loaded with a token in the storage,
    at its first render. *)
Definition storedSession : AuthContext.State :=
  {| AuthContext.user := None; AuthContext.loading := true;
     AuthContext.token := Some "t0"; AuthContext.stored := Some "t0" |}.

(** The provider of a page on which a user is logged in. *)
Definition signedIn : AuthContext.State :=
  {| AuthContext.user := Some sampleUser; AuthContext.loading := false;
     AuthContext.token := Some "t0"; AuthContext.stored := Some "t0" |}.

(** No required input of the step that has no answer is named like an
    inherited property: every callback of the filter returns. *)
Definition answers_readable (step : Node) (ans : gmap string string) : Prop :=
  Forall (fun input => ans !! input_id input = None ->
                       CustomerWidget.inherited (input_id input) = false)
         (CustomerWidget.requiredInputs step).

(** * Properties *)

Ltac reduce_ctx :=
  cbn iota beta zeta; cbn [ui world requests toasts clipboard fst snd].

Ltac run_handler :=
  unfold try_catch, bind, deref, of_result, axios, toast, set_state,
    clipboard_writeText, ret, throw;
  repeat (simpl; case_match; simplify_eq); simpl; try done.

(** ** White space and trimming *)

Lemma trimEnd_blank s : JS.blank s = true -> JS.trimEnd s = "".
Proof.
  induction s as [|c s IH]; simpl; [done|].
  intros [Hc Hs]%andb_prop. rewrite (IH Hs), Hc. done.
Qed.

Lemma trimEnd_empty_blank s : JS.trimEnd s = "" -> JS.blank s = true.
Proof.
  induction s as [|c s IH]; simpl; [done|].
  destruct (JS.trimEnd s) eqn:E; [|discriminate].
  destruct (JS.isWhiteSpace c); [|discriminate].
  intros _. simpl. by apply IH.
Qed.

Lemma trimStart_blank s : JS.blank s = true -> JS.trimStart s = "".
Proof.
  induction s as [|c s IH]; simpl; [done|].
  intros [Hc Hs]%andb_prop. rewrite Hc. by apply IH.
Qed.

Lemma blank_trimStart s : JS.blank (JS.trimStart s) = JS.blank s.
Proof.
  induction s as [|c s IH]; simpl; [done|].
  destruct (JS.isWhiteSpace c) eqn:Hc; simpl; [done|]. by rewrite Hc.
Qed.

(** A string is empty after trimming exactly when it holds white space only. *)
Lemma trim_empty_iff s : JS.trim s = "" <-> JS.blank s = true.
Proof.
  unfold JS.trim. split.
  - intros H%trimEnd_empty_blank. by rewrite blank_trimStart in H.
  - intros H. apply trimEnd_blank. by rewrite blank_trimStart.
Qed.

Lemma truthy_false_iff s : JS.truthy s = false <-> s = "".
Proof. destruct s; simpl; split; congruence. Qed.

Lemma truthy_trim_false_iff (o : option string) :
  JS.truthy_trim o = false <-> o = None \/ exists s, o = Some s /\ JS.trim s = "".
Proof.
  destruct o as [s|]; simpl.
  - rewrite truthy_false_iff. split; [eauto|]. intros [?|(?&[= <-]&?)]; done.
  - split; auto.
Qed.

(** ** Role checks (AuthContext) *)

Lemma eqb_true_iff (x y : string) : String.eqb x y = true <-> x = y.
Proof. apply String.eqb_eq. Qed.

Lemma includes_true_iff (l : list string) (x : string) :
  AuthContext.includes l x = true <-> In x l.
Proof.
  unfold AuthContext.includes. rewrite existsb_exists. split.
  - intros (y & Hy & ->%eqb_true_iff). done.
  - intros H. exists x. split; [done|]. by apply eqb_true_iff.
Qed.

Lemma isAgent_iff (u : option User) :
  AuthContext.isAgent u = true <->
  exists usr, u = Some usr /\ (user_role usr = "agent" \/ user_role usr = "admin").
Proof.
  destruct u as [usr|]; unfold AuthContext.isAgent, AuthContext.hasRole.
  - rewrite includes_true_iff. split.
    + intros [H|[H|[]]]; exists usr; auto.
    + intros (usr' & [= <-] & [H|H]); [left|right; left]; done.
  - split; [discriminate|]. intros (? & ? & _); discriminate.
Qed.

Lemma isAdmin_iff (u : option User) :
  AuthContext.isAdmin u = true <-> exists usr, u = Some usr /\ user_role usr = "admin".
Proof.
  destruct u as [usr|]; unfold AuthContext.isAdmin, AuthContext.hasRole.
  - rewrite eqb_true_iff. split; [eauto|]. by intros (usr' & [= <-] & H).
  - split; [discriminate|]. intros (? & ? & _); discriminate.
Qed.

(** C8: [isAgent] holds exactly for a logged-in user whose role is 'agent'
    or 'admin', so an admin passes every agent check; [isAdmin] holds
    exactly for role 'admin'; with no user every role check is false. *)
Theorem C8_role_checks :
  (forall u : option User,
      AuthContext.isAgent u = true <->
      exists usr, u = Some usr /\ (user_role usr = "agent" \/ user_role usr = "admin")) /\
  (forall u : option User,
      AuthContext.isAdmin u = true <->
      exists usr, u = Some usr /\ user_role usr = "admin") /\
  (forall u : option User, AuthContext.isAdmin u = true -> AuthContext.isAgent u = true) /\
  (forall role : AuthContext.RoleArg, AuthContext.hasRole None role = false) /\
  AuthContext.isAdmin None = false /\ AuthContext.isAgent None = false /\
  AuthContext.isCustomer None = false.
Proof.
  repeat split; try apply isAgent_iff; try apply isAdmin_iff; try done.
  intros u (usr & -> & H)%isAdmin_iff. apply isAgent_iff. eauto.
Qed.

(** ** A 401 response logs the client out (AuthContext) *)

Lemma request_401 (A : Type) (detail : option string) (b : Backend)
    (c : Ctx AuthContext.State) :
  AuthContext.request (@AuthContext.Failed A (Some 401) detail) b c =
  (Throw (AxiosError (Some 401)),
   {| ui := {| AuthContext.user := None; AuthContext.loading := AuthContext.loading (ui c);
               AuthContext.token := None; AuthContext.stored := None |};
      world := {| requests := requests (world c);
                  toasts := (toasts (world c) ++ [ToastSuccess "Logged out successfully"])
                              ++ [ToastError "Session expired. Please login again."];
                  clipboard := clipboard (world c) |} |}).
Proof. reflexivity. Qed.

(** A response rejected with status 401 to a request that was issued with
    the interceptors registered goes through the response interceptor,
    which removes the stored token and sets token and user to null before
    the rejection reaches the caller; the catch blocks of [login] and
    [loadUser] leave the client logged out. *)
Lemma registered_401_logs_out :
  (forall (A : Type) (detail : option string) (b : Backend) (c : Ctx AuthContext.State),
      let r := AuthContext.request (@AuthContext.Failed A (Some 401) detail) b c in
      fst r = Throw (AxiosError (Some 401)) /\ logged_out (ui (snd r))) /\
  (forall (detail : option string) (b : Backend) (c : Ctx AuthContext.State),
      let r := AuthContext.login (AuthContext.Failed (Some 401) detail) b c in
      (exists msg, fst r = Ok (AuthContext.Failure msg)) /\ logged_out (ui (snd r))) /\
  (forall (detail : option string) (b : Backend) (c : Ctx AuthContext.State),
      let r := AuthContext.loadUser (AuthContext.Failed (Some 401) detail) (ui c) b c in
      JS.truthy (default "" (AuthContext.token (ui c))) = true ->
      fst r = Ok tt /\ logged_out (ui (snd r))).
Proof.
  split; [|split].
  - intros A detail b c. rewrite request_401. simpl. by repeat split.
  - intros detail b c. unfold AuthContext.login, try_catch, bind.
    rewrite request_401. simpl. split; [eauto|]. by repeat split.
  - intros detail b c r Ht. subst r.
    unfold AuthContext.loadUser, try_catch, bind. rewrite Ht.
    rewrite request_401. simpl. by repeat split.
Qed.

(** C9 fails for the first request of a widget page.  In the first commit
    at /widget/:guideSlug the effect of the widget issues GET /api/guides
    before the effect of the provider has registered the interceptors.
    When the backend answers that request with status 401 the rejection
    reaches only the catch block of [loadGuideAndStartSession]: the widget
    reports "Failed to load guide", nothing else is requested by the
    widget, and the token in the state and in the storage are those of
    before, whatever they were.  A page loaded with the token t0 in the
    storage ends with t0 still in the state and in the storage and, the
    user lookup having succeeded, with that user logged in.  The same
    response to the same request of a run that starts with the
    interceptors registered logs the client out. *)
Theorem C9_mount_request_escapes_interceptor :
  (forall (guideSlug : string) (stepSlug : option string) (detail : option string)
          (versionResponse : AuthContext.Response Version)
          (sessionResponse : AuthContext.Response Session) (usr : User)
          (b : Backend) (w : World) (l : Loader CustomerWidget.State),
      let c := {| ui := {| Mount.widget := l; Mount.installed := false |};
                  world := w |} in
      let r := Mount.mountWidget guideSlug stepSlug
                 (AuthContext.Failed (Some 401) detail) versionResponse sessionResponse
                 (AuthContext.Fulfilled usr) b c in
      let st' := provider (Mount.widget (ui (snd r))) in
      fst r = Ok tt /\
      Mount.installed (ui (snd r)) = true /\
      fetched (Mount.widget (ui (snd r))) = fetched l ++ [GetGuides] /\
      AuthContext.token st' = AuthContext.token (provider l) /\
      AuthContext.stored st' = AuthContext.stored (provider l) /\
      toasts (world (snd r)) = toasts w ++ [ToastError "Failed to load guide"]) /\
  (let c := start {| Mount.widget := {| page := emptyCustomer; guides := [];
                                        fetched := []; provider := storedSession |};
                     Mount.installed := false |} in
   let r := Mount.mountWidget "reset" None
              (AuthContext.Failed (Some 401) None) (AuthContext.Failed None None)
              (AuthContext.Failed None None) (AuthContext.Fulfilled sampleUser)
              always_resolves c in
   let st' := provider (Mount.widget (ui (snd r))) in
   st' = {| AuthContext.user := Some sampleUser; AuthContext.loading := false;
            AuthContext.token := Some "t0"; AuthContext.stored := Some "t0" |} /\
   ~ logged_out st' /\
   toasts (world (snd r)) = [ToastError "Failed to load guide"]) /\
  (forall (guideSlug : string) (stepSlug : option string) (detail : option string)
          (versionResponse : AuthContext.Response Version)
          (sessionResponse : AuthContext.Response Session)
          (b : Backend) (c : Ctx (Loader CustomerWidget.State)),
      let r := CustomerLoad.loadGuideAndStartSession true guideSlug stepSlug
                 (AuthContext.Failed (Some 401) detail) versionResponse sessionResponse
                 b c in
      logged_out (provider (ui (snd r)))).
Proof.
  split; [|split].
  - intros guideSlug stepSlug detail versionResponse sessionResponse usr b w
      [p gs fs [u ld tk sto]]. cbv zeta.
    unfold Mount.mountWidget, Mount.on_widget, Mount.registerInterceptors,
      CustomerLoad.loadGuideAndStartSession, AuthContext.loadUser.
    unfold try_finally, try_catch, bind, fetch, on_page, on_provider, AuthContext.request,
      set_page, set_state, toast, ret, throw.
    cbn [ui world page fetched guides provider requests toasts clipboard fst snd
           Mount.widget Mount.installed AuthContext.token AuthContext.stored
           AuthContext.user AuthContext.loading].
    destruct (JS.truthy (default "" tk)); by repeat split.
  - vm_compute. repeat split. intros (H & _). discriminate.
  - intros guideSlug stepSlug detail versionResponse sessionResponse b c. cbv zeta.
    unfold CustomerLoad.loadGuideAndStartSession, fetch.
    unfold try_finally, try_catch, bind, on_provider, set_page, set_state.
    cbn [ui world page fetched guides provider fst snd].
    rewrite request_401. by repeat split.
Qed.

(** ** The CRM form of the agent portal *)

Lemma handleCrmSubmit_blank (b : Backend) (st : AgentPortal.State) (c : Ctx AgentPortal.State) :
  JS.trim (crm_id (AgentPortal.crmData st)) = "" ->
  AgentPortal.handleCrmSubmit st b c =
  (Ok tt, {| ui := ui c;
             world := {| requests := requests (world c);
                         toasts := toasts (world c) ++ [ToastError "CRM ID is required"];
                         clipboard := clipboard (world c) |} |}).
Proof. intros H. unfold AgentPortal.handleCrmSubmit. by rewrite H. Qed.

Lemma handleCrmSubmit_ui (b : Backend) (st : AgentPortal.State) (c : Ctx AgentPortal.State) :
  ui (snd (AgentPortal.handleCrmSubmit st b c)) = ui c.
Proof.
  unfold AgentPortal.handleCrmSubmit.
  destruct (negb _); [done|].
  unfold try_catch, bind, deref, axios, toast, ret, throw.
  destruct (AgentPortal.session st); [|done].
  destruct (AgentPortal.user st); [|done]. simpl.
  destruct (b _ _); [|done]. simpl.
  destruct (b _ _); done.
Qed.


(** ** Visible steps *)

Lemma strict_eq_true_iff (o : option string) (s : string) :
  strict_eq o s = true <-> o = Some s.
Proof.
  destruct o as [x|]; simpl; [|split; discriminate].
  rewrite eqb_true_iff. split; congruence.
Qed.

Lemma not_agent_only_true_iff (n : Node) :
  not_agent_only n = true <-> data_field visibility n <> Some "agent".
Proof.
  unfold not_agent_only. rewrite negb_true_iff, <- not_true_iff_false.
  by rewrite strict_eq_true_iff.
Qed.

Lemma not_agent_only_false_iff (n : Node) :
  not_agent_only n = false <-> data_field visibility n = Some "agent".
Proof.
  unfold not_agent_only. rewrite negb_false_iff. apply strict_eq_true_iff.
Qed.

Lemma filter_removes_agent_only (G : list Node) :
  removes_agent_only G (List.filter not_agent_only G).
Proof.
  induction G as [|n G IH]; simpl; [constructor|].
  destruct (not_agent_only n) eqn:E.
  - apply rao_keep; [by apply not_agent_only_true_iff|done].
  - apply rao_drop; [by apply not_agent_only_false_iff|done].
Qed.

Lemma removes_agent_only_unique (G V : list Node) :
  removes_agent_only G V -> V = List.filter not_agent_only G.
Proof.
  induction 1 as [|n G V Hn _ IH|n G V Hn _ IH]; simpl; [done| |].
  - apply not_agent_only_true_iff in Hn. rewrite Hn. by f_equal.
  - apply not_agent_only_false_iff in Hn. by rewrite Hn.
Qed.

Lemma filter_sublist {A} (p : A -> bool) (l : list A) : sublist (List.filter p l) l.
Proof.
  induction l as [|x l IH]; simpl; [constructor|].
  destruct (p x); by constructor.
Qed.

Section Transitions.
Variable b : Backend.

Lemma customer_step_version c c' :
  customer_step b c c' ->
  CustomerWidget.version (ui c') = CustomerWidget.version (ui c).
Proof.
  destruct 1; try done.
  - unfold CustomerWidget.handleStepComplete, CustomerWidget.completeSession.
    run_handler.
  - unfold CustomerWidget.handleEscalation. run_handler.
Qed.

Lemma agent_step_version c c' :
  agent_step b c c' ->
  AgentPortal.currentVersion (ui c') = AgentPortal.currentVersion (ui c).
Proof.
  destruct 1; try done.
  - unfold AgentPortal.navigationClick, AgentPortal.handleStepComplete,
      AgentPortal.completeSession, AgentPortal.generateCrmNote.
    run_handler.
  - unfold AgentPortal.handleEscalation. run_handler.
  - unfold AgentPortal.handleCrmSubmit. run_handler.
Qed.

Lemma customer_steps_version c c' :
  rtc (customer_step b) c c' ->
  CustomerWidget.version (ui c') = CustomerWidget.version (ui c).
Proof.
  induction 1 as [|c1 c2 c3 H _ IH]; [done|].
  rewrite IH. by apply customer_step_version.
Qed.

Lemma agent_steps_version c c' :
  rtc (agent_step b) c c' ->
  AgentPortal.currentVersion (ui c') = AgentPortal.currentVersion (ui c).
Proof.
  induction 1 as [|c1 c2 c3 H _ IH]; [done|].
  rewrite IH. by apply agent_step_version.
Qed.
End Transitions.

(** C6: the customer's visible sequence is the node sequence with exactly
    the agent-only steps removed, order kept; the agent's is the whole
    sequence; the former is a subsequence of the latter; and after any
    number of transitions of either runtime the denominator of
    "Step N of M" is the length of the role's visible sequence. *)
Theorem C6_visible_steps :
  (forall G : list Node,
      removes_agent_only G (visibleSteps G customer) /\
      (forall V, removes_agent_only G V -> V = visibleSteps G customer) /\
      (forall n, n ∈ visibleSteps G customer <->
                 n ∈ G /\ data_field visibility n <> Some "agent")) /\
  (forall G : list Node, visibleSteps G agent = G) /\
  (forall G : list Node, sublist (visibleSteps G customer) (visibleSteps G agent)) /\
  (forall (b : Backend) (c c' : Ctx CustomerWidget.State) (v : Version),
      rtc (customer_step b) c c' ->
      CustomerWidget.version (ui c) = Some v ->
      CustomerWidget.version (ui c') = Some v /\
      CustomerWidget.denominator v = length (visibleSteps (nodes v) customer)) /\
  (forall (b : Backend) (c c' : Ctx AgentPortal.State) (v : Version),
      rtc (agent_step b) c c' ->
      AgentPortal.currentVersion (ui c) = Some v ->
      AgentPortal.denominator (ui c') = length (visibleSteps (nodes v) agent)).
Proof.
  split; [|split; [|split; [|split]]].
  - intros G. split; [apply filter_removes_agent_only|].
    split; [apply removes_agent_only_unique|].
    intros n. simpl. rewrite !list_elem_of_In, filter_In, not_agent_only_true_iff. done.
  - done.
  - intros G. apply filter_sublist.
  - intros b c c' v Hsteps Hv. split; [|done].
    rewrite <- Hv. by apply (customer_steps_version b).
  - intros b c c' v Hsteps Hv. unfold AgentPortal.denominator.
    rewrite (agent_steps_version b c c' Hsteps), Hv. done.
Qed.

(** ** Resolution of the initial step *)

Lemma findIndex_from_spec {A} (p : A -> bool) (l : list A) (i : Z) :
  findIndex_from p l i =
  match list_find (fun x => p x = true) l with
  | Some (j, _) => (i + Z.of_nat j)%Z
  | None => (-1)%Z
  end.
Proof.
  revert i. induction l as [|x l IH]; intros i; simpl; [done|].
  destruct (p x) eqn:E.
  - rewrite decide_True by done. simpl. lia.
  - rewrite decide_False by congruence. rewrite IH.
    destruct (list_find _ l) as [[j y]|]; simpl; [lia|done].
Qed.

Lemma findIndex_from_none {A} (p : A -> bool) (l : list A) (i : Z) :
  Forall (fun x => p x = false) l -> findIndex_from p l i = (-1)%Z.
Proof.
  intros H. revert i. induction H as [|x l Hx _ IH]; intros i; simpl; [done|].
  rewrite Hx. apply IH.
Qed.

(** Where no agent-only step occurs, the index of the code is the
    position within the customer's visible sequence. *)
Lemma targetStepIndex_unfiltered (G : list Node) (s : string) :
  Forall (fun n => not_agent_only n = true) G ->
  JS.truthy s = true ->
  CustomerWidget.targetStepIndex G (Some s) = spec_resolveStepIndex G customer s.
Proof.
  intros HG Hs. unfold CustomerWidget.targetStepIndex, spec_resolveStepIndex.
  rewrite Hs. unfold findIndex. rewrite findIndex_from_spec. simpl.
  replace (List.filter not_agent_only G) with G.
  - destruct (list_find _ G) as [[j y]|]; simpl; [|done].
    destruct (_ =? _)%Z eqn:E; [apply Z.eqb_eq in E|]; lia.
  - induction HG as [|n G Hn _ IH]; simpl; [done|]. rewrite Hn. by f_equal.
Qed.

(** Index 0 when no step matches. *)
Lemma targetStepIndex_no_match (G : list Node) (s : string) :
  Forall (fun n => CustomerWidget.matches s n = false) G ->
  CustomerWidget.targetStepIndex G (Some s) = 0.
Proof.
  intros HG. unfold CustomerWidget.targetStepIndex.
  destruct (JS.truthy s); [|done].
  unfold findIndex. rewrite findIndex_from_none; done.
Qed.

(** C5: on the graph [x (agent-only); a] and the identifier "a" the widget
    computes index 1, the position in the unfiltered node sequence, while
    the customer's visible sequence is [a] and the position of "a" in it
    is 0; the widget then shows "Step 2 of 1".  Without an identifier it
    starts on the agent-only step x. *)
Theorem C5_index_counts_unfiltered_nodes :
  let G := [stepX; stepA] in
  let c := snd (CustomerWidget.initStep {| nodes := G |} (Some "a") always_resolves
                  (start (customerAt G 0 None ∅ ""))) in
  let c0 := snd (CustomerWidget.initStep {| nodes := G |} None always_resolves
                   (start (customerAt G 0 None ∅ ""))) in
  visibleSteps G customer = [stepA] /\
  spec_resolveStepIndex G customer "a" = 0 /\
  CustomerWidget.targetStepIndex G (Some "a") = 1 /\
  CustomerWidget.stepIndex (ui c) = 1 /\
  CustomerWidget.currentStep (ui c) = Some stepA /\
  CustomerWidget.denominator {| nodes := G |} = 1 /\
  CustomerWidget.currentStep (ui c0) = Some stepX.
Proof. vm_compute. repeat split. Qed.

(** ** Validation of required inputs *)

Lemma missingInputs_nil_iff (step : Node) (ans : gmap string string) :
  CustomerWidget.unanswered step ans = [] <->
  forall input, In input (default [] (data_field inputs step)) ->
                input_required input = true ->
                exists s, ans !! input_id input = Some s /\ JS.trim s <> "".
Proof.
  unfold CustomerWidget.unanswered, CustomerWidget.requiredInputs.
  destruct (data_field inputs step) as [l|]; simpl; [|by split].
  induction l as [|i l IH]; simpl; [by split|].
  destruct (input_required i) eqn:Hr; simpl.
  - destruct (JS.truthy_trim (ans !! input_id i)) eqn:Ht; simpl.
    + rewrite IH. split.
      * intros H input [<-|Hin] Hreq; [|by apply H].
        destruct (ans !! input_id i) as [s|]; [|done].
        exists s. split; [done|]. simpl in Ht. intros E. by rewrite E in Ht.
      * intros H input Hin. apply H. by right.
    + split; [done|]. intros H.
      destruct (H i (or_introl eq_refl) Hr) as (s & Hs & Hne).
      rewrite Hs in Ht. simpl in Ht. by apply truthy_false_iff in Ht.
  - rewrite IH. split.
    + intros H input [<-|Hin] Hreq; [congruence|by apply H].
    + intros H input Hin. apply H. by right.
Qed.

(** A step without required inputs is satisfied by any answer map. *)
Lemma missingInputs_no_required (step : Node) (ans : gmap string string) :
  Forall (fun input => input_required input = false)
         (default [] (data_field inputs step)) ->
  CustomerWidget.unanswered step ans = [].
Proof.
  intros H. apply missingInputs_nil_iff. intros input Hin Hreq.
  rewrite Forall_forall in H. apply list_elem_of_In, H in Hin. congruence.
Qed.

(** Where it returns, the filter of the handler keeps the missing inputs. *)
Lemma filter_throwing_Ok (ans : gmap string string) (l r : list Input) :
  filter_throwing (CustomerWidget.is_missing ans) l = Ok r ->
  r = List.filter (fun input => negb (JS.truthy_trim (ans !! input_id input))) l.
Proof.
  revert r. induction l as [|i l IH]; intros r; simpl; [by intros [= <-]|].
  unfold CustomerWidget.is_missing at 1.
  destruct (ans !! input_id i) as [a|] eqn:Ha; simpl.
  - destruct (filter_throwing _ l) as [r'|e]; [|done].
    intros [= <-]. by rewrite (IH r' eq_refl).
  - destruct (CustomerWidget.inherited (input_id i)); [done|].
    destruct (filter_throwing _ l) as [r'|e]; [|done].
    intros [= <-]. by rewrite (IH r' eq_refl).
Qed.

Lemma filter_throwing_readable (ans : gmap string string) (l : list Input) :
  Forall (fun input => ans !! input_id input = None ->
                       CustomerWidget.inherited (input_id input) = false) l ->
  filter_throwing (CustomerWidget.is_missing ans) l =
  Ok (List.filter (fun input => negb (JS.truthy_trim (ans !! input_id input))) l).
Proof.
  induction 1 as [|i l Hi _ IH]; simpl; [done|].
  unfold CustomerWidget.is_missing at 1.
  destruct (ans !! input_id i) as [a|] eqn:Ha; simpl.
  - by rewrite IH.
  - rewrite (Hi eq_refl), IH. done.
Qed.

Lemma missingInputs_filter_readable (step : Node) (ans : gmap string string) :
  answers_readable step ans ->
  CustomerWidget.missingInputs step ans = Ok (CustomerWidget.unanswered step ans).
Proof. apply filter_throwing_readable. Qed.

Lemma missingInputs_filter_Ok (step : Node) (ans : gmap string string) (r : list Input) :
  CustomerWidget.missingInputs step ans = Ok r ->
  r = CustomerWidget.unanswered step ans.
Proof. apply filter_throwing_Ok. Qed.

(** When nothing is missing every required input has an answer, so the
    filter returns. *)
Lemma missingInputs_nil_readable (step : Node) (ans : gmap string string) :
  CustomerWidget.unanswered step ans = [] -> answers_readable step ans.
Proof.
  unfold CustomerWidget.unanswered, answers_readable.
  induction (CustomerWidget.requiredInputs step) as [|i l IH]; simpl; [constructor|].
  destruct (ans !! input_id i) as [a|] eqn:Ha; simpl.
  - destruct (negb _); [done|]. intros H. apply List.Forall_cons; [congruence|by apply IH].
  - done.
Qed.

Lemma missingInputs_filter_nil (step : Node) (ans : gmap string string) :
  CustomerWidget.unanswered step ans = [] ->
  CustomerWidget.missingInputs step ans = Ok [].
Proof.
  intros H. rewrite missingInputs_filter_readable by by apply missingInputs_nil_readable.
  by rewrite H.
Qed.

(** The customer widget refuses to advance while a required input is
    missing or blank: nothing is sent and the state is unchanged. *)
Lemma customer_advance_blocked (b : Backend) (st : CustomerWidget.State)
    (c : Ctx CustomerWidget.State) (step : Node) :
  CustomerWidget.currentStep st = Some step ->
  answers_readable step (CustomerWidget.answers st) ->
  CustomerWidget.unanswered step (CustomerWidget.answers st) <> [] ->
  CustomerWidget.handleStepComplete st b c =
  (Ok tt, {| ui := ui c;
             world := {| requests := requests (world c);
                         toasts := toasts (world c)
                                     ++ [ToastError "Please fill in all required fields"];
                         clipboard := clipboard (world c) |} |}).
Proof.
  intros Hstep Hread Hmiss.
  unfold CustomerWidget.handleStepComplete, try_catch, bind, deref, of_result.
  rewrite Hstep. simpl. rewrite missingInputs_filter_readable by done. simpl.
  destruct (CustomerWidget.unanswered _ _); [done|]. done.
Qed.

(** An unanswered required input that is named like an inherited property
    makes the validation itself throw: the widget stays where it is and
    reports "Failed to complete step". *)
Lemma customer_advance_type_error (b : Backend) (st : CustomerWidget.State)
    (c : Ctx CustomerWidget.State) (step : Node) (e : Exn) :
  CustomerWidget.currentStep st = Some step ->
  CustomerWidget.missingInputs step (CustomerWidget.answers st) = Throw e ->
  CustomerWidget.handleStepComplete st b c =
  (Ok tt, {| ui := ui c;
             world := {| requests := requests (world c);
                         toasts := toasts (world c) ++ [ToastError "Failed to complete step"];
                         clipboard := clipboard (world c) |} |}).
Proof.
  intros Hstep Hthrow.
  unfold CustomerWidget.handleStepComplete, try_catch, bind, deref, of_result.
  rewrite Hstep. simpl. rewrite Hthrow. done.
Qed.

(** On a step whose required input is named constructor, without an
    answer, the validation throws and the click ends in the catch block. *)
Lemma customer_advance_inherited_name :
  let step := mkNode "c" "customer" [{| input_id := "constructor"; input_required := true |}] in
  let c := start (customerAt [step] 0 (Some step) ∅ "") in
  let c' := click CustomerWidget.handleStepComplete always_resolves c in
  CustomerWidget.missingInputs step ∅ = Throw TypeError /\
  ui c' = ui c /\ requests (world c') = [] /\
  toasts (world c') = [ToastError "Failed to complete step"].
Proof. vm_compute. repeat split. Qed.

(** C2: the agent portal does not validate.  On the step b, whose input
    q1 is required, with an empty answer map, the agent's "Next Step"
    logs step_completed with the empty answers and moves to index 1
    without any error, while the customer widget on the same step stays
    at index 0 with the validation error and sends nothing. *)
Theorem C2_agent_advances_without_required_answer :
  let G := [stepB; stepA] in
  let a := click AgentPortal.navigationClick always_resolves
             (start (agentAt G 0 (Some stepB) ∅ "crm-7")) in
  let k := click CustomerWidget.handleStepComplete always_resolves
             (start (customerAt G 0 (Some stepB) ∅ "")) in
  CustomerWidget.missingInputs stepB ∅ = Ok [{| input_id := "q1"; input_required := true |}] /\
  AgentPortal.navigation_rendered (agentAt G 0 (Some stepB) ∅ "crm-7") = true /\
  AgentPortal.stepIndex (ui a) = 1 /\
  AgentPortal.currentStep (ui a) = Some stepA /\
  toasts (world a) = [] /\
  events_of "step_completed" (world a) =
    [{| ev_session_id := "s1"; ev_step_id := Some "b"; ev_action := "step_completed";
        ev_props := PropsAnswers ∅ |}] /\
  CustomerWidget.stepIndex (ui k) = 0 /\
  CustomerWidget.currentStep (ui k) = Some stepB /\
  requests (world k) = [] /\
  toasts (world k) = [ToastError "Please fill in all required fields"].
Proof. vm_compute. repeat split. Qed.

(** ** Advancing and the effect sinks (customer widget) *)

(** Every exception of the handler is caught: it never throws. *)
Lemma handleStepComplete_never_throws (b : Backend) (st : CustomerWidget.State)
    (c : Ctx CustomerWidget.State) :
  fst (CustomerWidget.handleStepComplete st b c) = Ok tt.
Proof.
  unfold CustomerWidget.handleStepComplete, CustomerWidget.completeSession.
  run_handler.
Qed.

(** C3, as stated, fails: on the one-step graph [a], at the last index 0
    with nothing required, a backend that rejects every call leaves the
    widget on step a at index 0 (it is not Completed), with the
    notification "Failed to complete step"; on [a; b] at index 0 the
    widget does not move to index 1 either. *)
Lemma C3_counterexample :
  let c := start (customerAt [stepA] 0 (Some stepA) ∅ "") in
  let c' := click CustomerWidget.handleStepComplete (always_rejects (Some 500)) c in
  let d := start (customerAt [stepA; stepB] 0 (Some stepA) ∅ "") in
  let d' := click CustomerWidget.handleStepComplete (always_rejects (Some 500)) d in
  CustomerWidget.stepIndex (ui c) + 1 = length (visibleSteps [stepA] customer) /\
  CustomerWidget.missingInputs stepA ∅ = Ok [] /\
  CustomerWidget.render (ui c') = CustomerWidget.AtStep 0 stepA /\
  CustomerWidget.render (ui c') <> CustomerWidget.Completed /\
  toasts (world c') = [ToastError "Failed to complete step"] /\
  CustomerWidget.render (ui d') = CustomerWidget.AtStep 0 stepA.
Proof. vm_compute. repeat split. discriminate. Qed.

(** C3, amended: a rejected sink never makes [handleStepComplete] throw
    and is surfaced as an error notification of the widget, which on a
    status 401 follows the two notifications of the response interceptor;
    but it blocks the local transition.  When the step_completed call is
    rejected the state is unchanged and the notification is "Failed to
    complete step".  When it resolves and a next visible step exists the
    widget moves there with an empty answer map.  From the last index the
    completion card is installed when the session-complete call and the
    session_completed call both resolve; if either is rejected the state is
    unchanged and the notification is "Failed to complete session". *)
Theorem C3_sink_failure_blocks_advance :
  forall (b : Backend) (c : Ctx CustomerWidget.State) (s : Session) (step : Node)
         (v : Version),
    CustomerWidget.currentStep (ui c) = Some step ->
    CustomerWidget.session (ui c) = Some s ->
    CustomerWidget.version (ui c) = Some v ->
    CustomerWidget.missingInputs step (CustomerWidget.answers (ui c)) = Ok [] ->
    let st := ui c in
    let k := CustomerWidget.stepIndex st in
    let visible := visibleSteps (nodes v) customer in
    let log0 := requests (world c) in
    let ev := PostEvent (stepCompleted s step (CustomerWidget.answers st)) in
    let o1 := b log0 ev in
    let log1 := log0 ++ [(ev, o1)] in
    let fin := PostSessionComplete (session_id s) in
    let o2 := b log1 fin in
    let log2 := log1 ++ [(fin, o2)] in
    let sc := PostEvent (sessionCompleted s (k + 1) (Some "customer_completed")) in
    let o3 := b log2 sc in
    let r := CustomerWidget.handleStepComplete st b c in
    fst r = Ok tt /\
    (forall status, o1 = Rejected status ->
       ui (snd r) = st /\
       requests (world (snd r)) = log1 /\
       toasts (world (snd r)) =
         toasts (world c) ++ interceptor_toasts status
           ++ [ToastError "Failed to complete step"]) /\
    (o1 = Resolved -> k + 1 < length visible ->
       CustomerWidget.stepIndex (ui (snd r)) = k + 1 /\
       CustomerWidget.currentStep (ui (snd r)) = visible !! (k + 1) /\
       CustomerWidget.answers (ui (snd r)) = ∅ /\
       requests (world (snd r)) = log1 /\
       toasts (world (snd r)) = toasts (world c)) /\
    (o1 = Resolved -> length visible <= k + 1 ->
       (o2 = Resolved -> o3 = Resolved ->
          CustomerWidget.currentStep (ui (snd r)) = Some CustomerWidget.completionCard /\
          CustomerWidget.stepIndex (ui (snd r)) = k /\
          requests (world (snd r)) = log2 ++ [(sc, o3)] /\
          toasts (world (snd r)) = toasts (world c)) /\
       (forall status,
          o2 = Rejected status \/ (o2 = Resolved /\ o3 = Rejected status) ->
          ui (snd r) = st /\
          toasts (world (snd r)) =
            toasts (world c) ++ interceptor_toasts status
              ++ [ToastError "Failed to complete session"])).
Proof.
  intros b [st [log ts cb]] s step v Hstep Hs Hv Hmiss. cbv zeta.
  simpl in Hstep, Hs, Hv, Hmiss.
  split; [apply handleStepComplete_never_throws|].
  unfold stepCompleted, sessionCompleted.
  unfold CustomerWidget.handleStepComplete, CustomerWidget.completeSession.
  unfold try_catch, bind, deref, of_result, axios, toast, set_state, ret, throw.
  cbn [ui world requests toasts clipboard].
  rewrite Hstep. cbn iota beta. rewrite Hmiss.
  cbn iota beta.
  change (0 <? length (@nil Input))%nat with false.
  cbn iota. rewrite Hs. cbn iota beta zeta.
  cbn [ui world requests toasts clipboard].
  destruct (b log _) as [|st1]; cbn iota beta zeta.
  - rewrite Hv. cbn iota beta zeta.
    cbn [world requests toasts clipboard ui visibleSteps].
    split; [done|].
    destruct (CustomerWidget.stepIndex st + 1
              <? length (List.filter not_agent_only (nodes v)))%nat eqn:Hlt.
    + apply Nat.ltb_lt in Hlt. split; [intros _ _; done|].
      intros _ ?. lia.
    + apply Nat.ltb_ge in Hlt. split; [intros _ ?; lia|]. intros _ _.
      cbn iota beta zeta. cbn [world requests toasts clipboard ui].
      destruct (b _ (PostSessionComplete _)) as [|st2]; cbn iota beta zeta;
        cbn [world requests toasts clipboard ui].
      * destruct (b _ (PostEvent _)) as [|st3]; cbn iota beta zeta;
          cbn [world requests toasts clipboard ui fst snd]; split.
        -- intros _ _. done.
        -- intros status [?|[_ ?]]; done.
        -- intros _ ?. done.
        -- intros status [?|[_ [= <-]]]; [done|]. by rewrite <- app_assoc.
      * split; [done|]. intros status [[= <-]|[? _]]; [|done].
        cbn [world requests toasts clipboard ui fst snd]. by rewrite <- app_assoc.
  - cbn [world requests toasts clipboard ui fst snd].
    split; [|split; done]. intros status [= <-]. by rewrite <- app_assoc.
Qed.

(** With a rejecting backend the widget stays on the only step; on a 401
    its notification follows the two of the interceptor. *)
Lemma C3_sink_failure_blocks_advance_witness :
  let c := start (customerAt [stepA] 0 (Some stepA) ∅ "") in
  let r := CustomerWidget.handleStepComplete (ui c) (always_rejects (Some 401)) c in
  fst r = Ok tt /\ ui (snd r) = ui c /\
  toasts (world (snd r)) =
    [ToastSuccess "Logged out successfully";
     ToastError "Session expired. Please login again.";
     ToastError "Failed to complete step"].
Proof.
  intros c r.
  destruct (C3_sink_failure_blocks_advance (always_rejects (Some 401)) c
              sampleSession stepA {| nodes := [stepA] |}
              eq_refl eq_refl eq_refl eq_refl) as (H1 & H2 & _).
  split; [exact H1|].
  destruct (H2 (Some 401) eq_refl) as (H3 & _ & H4).
  split; [exact H3|exact H4].
Defined.

(** ** Notifications of an advance *)

Lemma events_of_snoc (a : string) (l : list (Request * Outcome)) (ts : list Toast)
    (cb : list CrmNote) (r : Request) (o : Outcome) :
  events_of a {| requests := l ++ [(r, o)]; toasts := ts; clipboard := cb |} =
  events_of a {| requests := l; toasts := ts; clipboard := cb |} ++
  match r with
  | PostEvent e => if String.eqb (ev_action e) a then [e] else []
  | _ => []
  end.
Proof.
  unfold events_of. cbn [requests]. rewrite omap_app. f_equal.
  destruct r as [e| | |]; try done. simpl. by destruct (String.eqb _ _).
Qed.

Lemma events_of_toasts (a : string) (l : list (Request * Outcome)) (ts ts' : list Toast)
    (cb cb' : list CrmNote) :
  events_of a {| requests := l; toasts := ts; clipboard := cb |} =
  events_of a {| requests := l; toasts := ts'; clipboard := cb' |}.
Proof. reflexivity. Qed.

(** In the customer widget a successful advance logs exactly one
    step_completed event, with the id of the current step and its answer
    map; the advance that installs the completion card logs exactly one
    session_completed event in addition. *)
Lemma customer_advance_events (b : Backend) (c : Ctx CustomerWidget.State)
    (s : Session) (step : Node) (v : Version) :
  CustomerWidget.currentStep (ui c) = Some step ->
  CustomerWidget.session (ui c) = Some s ->
  CustomerWidget.version (ui c) = Some v ->
  CustomerWidget.currentStep (ui (click CustomerWidget.handleStepComplete b c))
    <> Some step ->
  let c' := click CustomerWidget.handleStepComplete b c in
  events_of "step_completed" (world c') =
    events_of "step_completed" (world c)
      ++ [stepCompleted s step (CustomerWidget.answers (ui c))] /\
  events_of "session_completed" (world c') =
    events_of "session_completed" (world c)
      ++ (if (CustomerWidget.stepIndex (ui c) + 1
              <? length (visibleSteps (nodes v) customer))%nat
          then []
          else [sessionCompleted s (CustomerWidget.stepIndex (ui c) + 1)
                  (Some "customer_completed")]).
Proof.
  destruct c as [st [log ts cb]]. unfold click. cbn [ui world].
  intros Hstep Hs Hv.
  unfold stepCompleted, sessionCompleted.
  unfold CustomerWidget.handleStepComplete, CustomerWidget.completeSession.
  unfold try_catch, bind, deref, of_result, axios, toast, set_state, ret, throw.
  cbn [ui world requests toasts clipboard visibleSteps].
  rewrite Hstep. cbn iota beta.
  destruct (CustomerWidget.missingInputs _ _) as [missing|e];
    cbn iota beta; [|cbn; congruence].
  destruct (0 <? length missing)%nat; [cbn; congruence|].
  cbn iota. rewrite Hs. cbn iota beta zeta.
  cbn [ui world requests toasts clipboard].
  destruct (b log _); cbn iota beta zeta; [|cbn; congruence].
  rewrite Hv. cbn iota beta zeta. cbn [world requests toasts clipboard ui].
  destruct (CustomerWidget.stepIndex st + 1
            <? length (List.filter not_agent_only (nodes v)))%nat.
  - cbn [world requests toasts clipboard ui fst snd]. intros _.
    rewrite !events_of_snoc. cbn. by rewrite app_nil_r.
  - cbn iota beta zeta. cbn [world requests toasts clipboard ui].
    destruct (b _ (PostSessionComplete _)); cbn iota beta zeta;
      cbn [world requests toasts clipboard ui]; [|cbn; congruence].
    destruct (b _ (PostEvent _)); cbn iota beta zeta;
      cbn [world requests toasts clipboard ui fst snd]; [|cbn; congruence].
    intros _. rewrite !events_of_snoc. cbn. by rewrite !app_nil_r.
Qed.

(** ** The final advance of the agent portal *)

Lemma agent_completeSession_events (b : Backend) (st : AgentPortal.State)
    (c : Ctx AgentPortal.State) :
  events_of "step_completed" (world (snd (AgentPortal.completeSession st b c))) =
  events_of "step_completed" (world c).
Proof.
  destruct c as [st' [log ts cb]].
  unfold AgentPortal.completeSession, AgentPortal.generateCrmNote.
  unfold try_catch, bind, deref, axios, toast, clipboard_writeText, ret, throw.
  reduce_ctx.
  destruct (AgentPortal.session st) as [s|]; [|done]. reduce_ctx.
  destruct (b log _); reduce_ctx; [|by rewrite events_of_snoc, app_nil_r].
  destruct (b _ (PostEvent _)); reduce_ctx; [|by rewrite !events_of_snoc, !app_nil_r].
  destruct (AgentPortal.currentGuide st); reduce_ctx;
    [|by rewrite !events_of_snoc, !app_nil_r].
  destruct (AgentPortal.user st); reduce_ctx;
    by rewrite !events_of_snoc, !app_nil_r.
Qed.

(** C4: in the agent portal the button shown on the last step runs
    [completeSession] directly, so the final advance logs no
    step_completed event: the answers of the last step are never sent. *)
Theorem C4_agent_final_advance_skips_step_completed :
  forall (b : Backend) (c : Ctx AgentPortal.State),
    (Z.of_nat (AgentPortal.denominator (ui c)) - 1
       <= Z.of_nat (AgentPortal.stepIndex (ui c)))%Z ->
    events_of "step_completed" (world (click AgentPortal.navigationClick b c)) =
    events_of "step_completed" (world c).
Proof.
  intros b c Hlast. unfold click, AgentPortal.navigationClick.
  destruct (_ <? _)%Z eqn:E; [apply Z.ltb_lt in E; lia|].
  apply agent_completeSession_events.
Qed.

(** On the one-step graph the agent's completion logs session_completed alone. *)
Lemma C4_agent_final_advance_skips_step_completed_witness :
  let c := start (agentAt [stepA] 0 (Some stepA) {[ "q0" := "hi" ]} "crm-7") in
  let c' := click AgentPortal.navigationClick always_resolves c in
  AgentPortal.navigation_rendered (ui c) = true /\
  events_of "step_completed" (world c') = [] /\
  events_of "session_completed" (world c') = [sessionCompleted sampleSession 1 None] /\
  toasts (world c') = [ToastSuccess "Session completed successfully!"].
Proof.
  intros c c'. split; [reflexivity|]. split; [|split; reflexivity].
  apply (C4_agent_final_advance_skips_step_completed always_resolves c).
  vm_compute. discriminate.
Defined.

(** ** Escalation *)

Lemma escalations_of_snoc (l : list (Request * Outcome)) (ts : list Toast)
    (cb : list CrmNote) (r : Request) (o : Outcome) :
  escalations_of {| requests := l ++ [(r, o)]; toasts := ts; clipboard := cb |} =
  escalations_of {| requests := l; toasts := ts; clipboard := cb |} ++
  match r with
  | PostEscalation e => [e]
  | _ => []
  end.
Proof.
  unfold escalations_of. cbn [requests]. rewrite omap_app. f_equal.
  by destruct r.
Qed.


(** Escalating never touches the position, the current step or the
    answer map of the customer widget. *)
Lemma customer_escalation_traversal (b : Backend) (c : Ctx CustomerWidget.State) :
  let c' := click CustomerWidget.handleEscalation b c in
  CustomerWidget.stepIndex (ui c') = CustomerWidget.stepIndex (ui c) /\
  CustomerWidget.answers (ui c') = CustomerWidget.answers (ui c) /\
  CustomerWidget.currentStep (ui c') = CustomerWidget.currentStep (ui c).
Proof.
  unfold click, CustomerWidget.handleEscalation. run_handler.
Qed.

(** The agent portal's escalation changes no state at all. *)
Lemma agent_escalation_state (b : Backend) (st : AgentPortal.State)
    (c : Ctx AgentPortal.State) :
  ui (snd (AgentPortal.handleEscalation st b c)) = ui c.
Proof.
  unfold AgentPortal.handleEscalation. run_handler.
Qed.

(** What the customer widget sends when the message is not blank. *)
Lemma customer_escalation_requests (b : Backend) (c : Ctx CustomerWidget.State)
    (s : Session) (g : Guide) (step : Node) (v : Version) :
  JS.trim (CustomerWidget.escalationMessage (ui c)) <> "" ->
  CustomerWidget.session (ui c) = Some s ->
  CustomerWidget.guide (ui c) = Some g ->
  CustomerWidget.currentStep (ui c) = Some step ->
  CustomerWidget.version (ui c) = Some v ->
  let d := CustomerWidget.escalationData (ui c) s g step v in
  let c' := click CustomerWidget.handleEscalation b c in
  escalations_of (world c') = escalations_of (world c) ++ [d] /\
  events_of "escalation_submitted" (world c') =
    events_of "escalation_submitted" (world c) ++
    match b (requests (world c)) (PostEscalation d) with
    | Resolved => [escalationSubmitted s step d]
    | Rejected _ => []
    end.
Proof.
  destruct c as [st [log ts cb]]. unfold click. cbn [ui world requests].
  intros Hmsg Hs Hg Hstep Hv. cbv zeta.
  unfold CustomerWidget.handleEscalation, escalationSubmitted.
  unfold try_catch, bind, deref, axios, toast, set_state, ret, throw.
  destruct (JS.trim _) eqn:E; [done|]. cbn [JS.truthy negb]. reduce_ctx.
  rewrite Hs, Hg, Hstep, Hv. reduce_ctx.
  destruct (b log _); reduce_ctx.
  - destruct (b _ (PostEvent _)); reduce_ctx;
      rewrite !escalations_of_snoc, !events_of_snoc, !app_nil_r; done.
  - rewrite !escalations_of_snoc, !events_of_snoc, !app_nil_r; done.
Qed.


(** The agent portal sends the escalation record alone, without any
    escalation_submitted event, even when the backend accepts it. *)
Lemma agent_escalation_sends_no_event :
  let c := start (agentAt [stepA] 0 (Some stepA) ∅ "crm-7") in
  let c' := click AgentPortal.handleEscalation always_resolves c in
  length (escalations_of (world c')) = 1 /\
  events_of "escalation_submitted" (world c') = [] /\
  toasts (world c') = [ToastSuccess "Escalation submitted successfully"].
Proof. vm_compute. repeat split. Qed.


(** ** The escalation snapshot *)

Lemma customer_snapshot_length (st : CustomerWidget.State) (s : Session) (g : Guide)
    (step : Node) (v : Version) :
  length (history_snapshot (CustomerWidget.escalationData st s g step v)) =
  Nat.min (CustomerWidget.stepIndex st + 1) (length (nodes v)).
Proof. simpl. by rewrite length_map, length_take. Qed.

Lemma customer_snapshot_answers (st : CustomerWidget.State) (s : Session) (g : Guide)
    (step : Node) (v : Version) (e : HistoryEntry) :
  In e (history_snapshot (CustomerWidget.escalationData st s g step v)) ->
  exists t, e = StepAnswers t (CustomerWidget.answers st).
Proof. simpl. intros (n & <- & _)%in_map_iff. eauto. Qed.

Lemma filter_all_true {A} (p : A -> bool) (l : list A) :
  Forall (fun x => p x = true) l -> List.filter p l = l.
Proof.
  induction 1 as [|x l Hx _ IH]; simpl; [done|]. rewrite Hx. by f_equal.
Qed.

(** C1, as stated, fails.  On the graph [a; b] the customer answers q0
    with "hello" on step a, advances, answers q1 with "yes" on step b and
    escalates at index 1.  The answers recorded for step a are
    {q0: "hello"}, but the snapshot pairs step a with {q1: "yes"}, the
    answer map of the current step. *)
Lemma C1_counterexample :
  let b := always_resolves in
  let G := [stepA; stepB] in
  let c0 := start (customerAt G 0 (Some stepA) ∅ "") in
  let c1 := snd (CustomerWidget.handleInputChange "q0" "hello" b c0) in
  let c2 := click CustomerWidget.handleStepComplete b c1 in
  let c3 := snd (CustomerWidget.handleInputChange "q1" "yes" b c2) in
  let c4 := snd (set_state (CustomerWidget.setEscalationMessage "I am stuck") b c3) in
  let c5 := click CustomerWidget.handleEscalation b c4 in
  CustomerWidget.stepIndex (ui c4) = 1 /\
  recordedAnswers (world c4) stepA = Some {[ "q0" := "hello" ]} /\
  spec_history_snapshot (world c4) (visibleSteps G customer) 1
      (CustomerWidget.answers (ui c4)) =
    [StepAnswers (Some "Step a") {[ "q0" := "hello" ]};
     StepAnswers (Some "Step b") {[ "q1" := "yes" ]}] /\
  map history_snapshot (escalations_of (world c5)) =
    [[StepAnswers (Some "Step a") {[ "q1" := "yes" ]};
      StepAnswers (Some "Step b") {[ "q1" := "yes" ]}]] /\
  map history_snapshot (escalations_of (world c5)) <>
    [spec_history_snapshot (world c4) (visibleSteps G customer) 1
       (CustomerWidget.answers (ui c4))].
Proof.
  vm_compute. repeat split. intros H. discriminate H.
Qed.

(** The customer's snapshot is cut from the unfiltered node sequence: on
    [x (agent-only); a; b], at index 1 of the visible sequence [a; b], it
    lists x and a. *)
Lemma customer_snapshot_unfiltered :
  let G := [stepX; stepA; stepB] in
  let c := start (customerAt G 1 (Some stepB) ∅ "I am stuck") in
  let c' := click CustomerWidget.handleEscalation always_resolves c in
  visibleSteps G customer !! 1 = Some stepB /\
  map (fun d => map entry_step (history_snapshot d)) (escalations_of (world c')) =
    [[Some "Step x"; Some "Step a"]].
Proof. vm_compute. repeat split. Qed.

(** C1, amended: the escalation record handed to the sink by a session at
    index k (within the node sequence) holds exactly k+1 snapshot entries,
    never more, for k+1 steps of the graph in the order of the graph.  In
    the customer widget every entry pairs the title of its step with the
    answer map of the current step, and where the graph has no agent-only
    step the steps are the visible steps 0..k.  In the agent portal the
    entries are those of the steps 0..k of the agent's sequence. *)
Theorem C1_escalation_snapshot :
  (forall (b : Backend) (c : Ctx CustomerWidget.State) (s : Session) (g : Guide)
          (step : Node) (v : Version),
      JS.trim (CustomerWidget.escalationMessage (ui c)) <> "" ->
      CustomerWidget.session (ui c) = Some s ->
      CustomerWidget.guide (ui c) = Some g ->
      CustomerWidget.currentStep (ui c) = Some step ->
      CustomerWidget.version (ui c) = Some v ->
      let k := CustomerWidget.stepIndex (ui c) in
      exists d steps,
        escalations_of (world (click CustomerWidget.handleEscalation b c)) =
          escalations_of (world c) ++ [d] /\
        sublist steps (nodes v) /\
        length steps <= k + 1 /\
        (k < length (nodes v) -> length steps = k + 1) /\
        history_snapshot d =
          map (fun n => StepAnswers (data_field title n) (CustomerWidget.answers (ui c)))
              steps /\
        (Forall (fun n => not_agent_only n = true) (nodes v) ->
           steps = take (k + 1) (visibleSteps (nodes v) customer))) /\
  (forall (b : Backend) (c : Ctx AgentPortal.State) (s : Session) (g : Guide)
          (step : Node) (v : Version) (u : User),
      AgentPortal.session (ui c) = Some s ->
      AgentPortal.currentGuide (ui c) = Some g ->
      AgentPortal.currentStep (ui c) = Some step ->
      AgentPortal.currentVersion (ui c) = Some v ->
      AgentPortal.user (ui c) = Some u ->
      let k := AgentPortal.stepIndex (ui c) in
      exists d,
        escalations_of (world (click AgentPortal.handleEscalation b c)) =
          escalations_of (world c) ++ [d] /\
        length (history_snapshot d) <= k + 1 /\
        (k < length (nodes v) -> length (history_snapshot d) = k + 1) /\
        map entry_step (history_snapshot d) =
          map (data_field title) (take (k + 1) (visibleSteps (nodes v) agent))).
Proof.
  split.
  - intros b c s g step v Hmsg Hs Hg Hstep Hv k.
    exists (CustomerWidget.escalationData (ui c) s g step v),
           (take (k + 1) (nodes v)).
    split; [by apply (customer_escalation_requests b c s g step v)|].
    split; [apply sublist_take|].
    rewrite length_take.
    split; [lia|]. split; [lia|]. split; [done|].
    intros Hall. simpl. by rewrite filter_all_true.
  - intros b [st [log ts cb]] s g step v u Hs Hg Hstep Hv Hu k.
    cbn [ui] in *. subst k.
    exists (AgentPortal.escalationData st s g step v u).
    split; [|split; [|split]].
    + unfold click, AgentPortal.handleEscalation.
      unfold try_catch, bind, deref, axios, toast, ret, throw. reduce_ctx.
      rewrite Hs, Hg, Hstep, Hv, Hu. reduce_ctx.
      destruct (b log _); reduce_ctx; by rewrite escalations_of_snoc.
    + simpl. rewrite length_map, length_take. lia.
    + intros Hk. simpl. rewrite length_map, length_take. lia.
    + simpl. by rewrite map_map.
Qed.

(** On [a; b] at index 1 the customer's record holds the entries of a and
    of b, in that order, each with the current answers. *)
Lemma C1_escalation_snapshot_witness :
  let G := [stepA; stepB] in
  let c := start (customerAt G 1 (Some stepB) {[ "q1" := "yes" ]} "I am stuck") in
  exists d,
    escalations_of (world (click CustomerWidget.handleEscalation always_resolves c)) = [d] /\
    history_snapshot d = [StepAnswers (Some "Step a") {[ "q1" := "yes" ]};
                          StepAnswers (Some "Step b") {[ "q1" := "yes" ]}].
Proof.
  intros G c.
  destruct C1_escalation_snapshot as [H _].
  destruct (H always_resolves c sampleSession sampleGuide stepB {| nodes := G |})
    as (d & steps & Hd & _ & _ & _ & Hsnap & Hvis);
    [vm_compute; discriminate|reflexivity..|].
  exists d. split; [exact Hd|]. rewrite Hsnap, Hvis; [reflexivity|].
  repeat constructor.
Defined.

(** One advance on [x; a; b] keeps the version and its denominator. *)
Lemma C6_visible_steps_witness :
  let G := [stepX; stepA; stepB] in
  let c := start (customerAt G 0 (Some stepA) ∅ "") in
  let c' := click CustomerWidget.handleStepComplete always_resolves c in
  CustomerWidget.version (ui c') = Some {| nodes := G |} /\
  CustomerWidget.denominator {| nodes := G |} = length (visibleSteps G customer).
Proof.
  intros G c c'.
  destruct C6_visible_steps as (_ & _ & _ & H & _).
  apply (H always_resolves c c'); [|reflexivity].
  apply rtc_once. exact (customer_advance always_resolves c).
Defined.


(** A 401 on the initial user lookup leaves the client logged out. *)
Lemma registered_401_logs_out_witness :
  let st := {| AuthContext.user := Some sampleUser; AuthContext.loading := true;
               AuthContext.token := Some "tok"; AuthContext.stored := Some "tok" |} in
  let r := AuthContext.loadUser (AuthContext.Failed (Some 401) None) st
             always_resolves (start st) in
  fst r = Ok tt /\ logged_out (ui (snd r)).
Proof.
  intros st r.
  destruct registered_401_logs_out as (_ & _ & H).
  apply (H None always_resolves (start st)). reflexivity.
Defined.


(** ** The claim's wording of the validation *)

(** In the customer widget, a required input whose answer is missing or
    empty after trimming blocks the advance with the validation error,
    provided the validation itself does not throw. *)
Lemma customer_validation_error (b : Backend) (c : Ctx CustomerWidget.State)
    (step : Node) (input : Input) :
  CustomerWidget.currentStep (ui c) = Some step ->
  answers_readable step (CustomerWidget.answers (ui c)) ->
  In input (default [] (data_field inputs step)) ->
  input_required input = true ->
  (CustomerWidget.answers (ui c) !! input_id input = None \/
   exists a, CustomerWidget.answers (ui c) !! input_id input = Some a /\ JS.trim a = "") ->
  let c' := click CustomerWidget.handleStepComplete b c in
  ui c' = ui c /\ requests (world c') = requests (world c) /\
  toasts (world c') = toasts (world c) ++ [ToastError "Please fill in all required fields"].
Proof.
  intros Hstep Hread Hin Hreq Hans c'. subst c'. unfold click.
  rewrite (customer_advance_blocked b (ui c) c step Hstep Hread); [done|].
  intros Hnil. rewrite missingInputs_nil_iff in Hnil.
  destruct (Hnil input Hin Hreq) as (a & Ha & Hne).
  destruct Hans as [Hnone|(a' & Ha' & He)]; congruence.
Qed.

(** The agent portal moves on whatever the inputs of the step require. *)
Lemma agent_advance_ignores_inputs (b : Backend) (c : Ctx AgentPortal.State)
    (s : Session) (step : Node) (v : Version) :
  AgentPortal.session (ui c) = Some s ->
  AgentPortal.currentStep (ui c) = Some step ->
  AgentPortal.currentVersion (ui c) = Some v ->
  AgentPortal.stepIndex (ui c) + 1 < length (nodes v) ->
  b (requests (world c))
    (PostEvent (stepCompleted s step (AgentPortal.answers (ui c)))) = Resolved ->
  let c' := click AgentPortal.navigationClick b c in
  AgentPortal.stepIndex (ui c') = AgentPortal.stepIndex (ui c) + 1 /\
  toasts (world c') = toasts (world c).
Proof.
  destruct c as [st [log ts cb]]. cbn [ui world requests toasts].
  intros Hs Hstep Hv Hlt Hb. unfold click, AgentPortal.navigationClick.
  unfold AgentPortal.denominator. cbn [ui]. rewrite Hv.
  destruct (_ <? _)%Z eqn:E; [|apply Z.ltb_ge in E; lia].
  unfold AgentPortal.handleStepComplete.
  unfold try_catch, bind, deref, axios, toast, set_state, ret, throw. reduce_ctx.
  rewrite Hs, Hstep. reduce_ctx. unfold stepCompleted in Hb. rewrite Hb. reduce_ctx.
  rewrite Hv. reduce_ctx.
  destruct (AgentPortal.stepIndex st + 1 <? length (nodes v))%nat eqn:E';
    [done|apply Nat.ltb_ge in E'; lia].
Qed.

(** * Further properties of the code *)

(** ** The request interceptor *)

Lemma prefix_append (p s t : string) :
  String.prefix p s = true -> String.prefix p (String.append s t) = true.
Proof.
  revert s. induction p as [|a p IH]; intros [|c s]; simpl; try done.
  - by destruct (String.append _ _).
  - destruct (Ascii.ascii_dec a c); [|done]. apply IH.
Qed.

(** With an absolute base URL the interceptor leaves an absolute URL as it
    is, puts the base and, where the path lacks it, one slash in front of
    a relative one, so the result is always absolute; it sets the bearer
    header exactly when a token is present; and running it again changes
    nothing. *)
Theorem requestInterceptor_absolute :
  forall (token : option string) (base : string) (config : AuthRequests.Config),
    AuthRequests.startsWith base "http" = true ->
    let r := AuthRequests.requestInterceptor token base config in
    AuthRequests.startsWith (AuthRequests.url r) "http" = true /\
    (AuthRequests.startsWith (AuthRequests.url config) "http" = true ->
       AuthRequests.url r = AuthRequests.url config) /\
    (AuthRequests.startsWith (AuthRequests.url config) "http" = false ->
       AuthRequests.url r =
       String.append base
         (String.append
            (if AuthRequests.startsWith (AuthRequests.url config) "/" then "" else "/")
            (AuthRequests.url config))) /\
    AuthRequests.authorization r =
      (if JS.truthy (default "" token)
       then Some (String.append "Bearer " (default "" token))
       else AuthRequests.authorization config) /\
    AuthRequests.requestInterceptor token base r = r.
Proof.
  intros token base [u a] Hbase. cbv zeta.
  assert (Habs : AuthRequests.startsWith
            (String.append base
               (String.append (if AuthRequests.startsWith u "/" then "" else "/") u))
            "http" = true) by (by apply prefix_append).
  unfold AuthRequests.requestInterceptor. cbn [AuthRequests.url AuthRequests.authorization].
  destruct (JS.truthy (default "" token)) eqn:Ht;
    cbn [AuthRequests.url AuthRequests.authorization];
    destruct (AuthRequests.startsWith u "http") eqn:Hu;
    cbn [negb AuthRequests.url AuthRequests.authorization];
    rewrite ?Hu, ?Habs; cbn [negb]; repeat split; done.
Qed.

(** The default base URL is absolute. *)
Lemma requestInterceptor_absolute_witness :
  let r := AuthRequests.requestInterceptor (Some "tok") (AuthRequests.API_BASE_URL None)
             {| AuthRequests.url := "api/guides"; AuthRequests.authorization := None |} in
  AuthRequests.url r = "http://localhost:8001/api/guides" /\
  AuthRequests.authorization r = Some "Bearer tok".
Proof.
  intros r.
  destruct (requestInterceptor_absolute (Some "tok") (AuthRequests.API_BASE_URL None)
              {| AuthRequests.url := "api/guides"; AuthRequests.authorization := None |}
              eq_refl) as (_ & _ & Hrel & Hauth & _).
  split; [apply Hrel; reflexivity|exact Hauth].
Defined.

(** ** Logging in and looking the user up *)

(** A fulfilled login stores the access token in the storage and in the
    state and sets the user; a login rejected with a status other than 401
    changes nothing and reports the backend's detail, or "Login failed"
    where there is none; a logout after either leaves the client logged
    out. *)
Theorem login_outcomes :
  (forall (t : string) (u : User) (b : Backend) (c : Ctx AuthContext.State),
      let r := AuthContext.login (AuthContext.Fulfilled (t, u)) b c in
      fst r = Ok AuthContext.Success /\
      AuthContext.token (ui (snd r)) = Some t /\
      AuthContext.stored (ui (snd r)) = Some t /\
      AuthContext.user (ui (snd r)) = Some u /\
      toasts (world (snd r)) =
        toasts (world c)
          ++ [ToastSuccess (String.append "Welcome back, "
                              (String.append (user_email u) "!"))]) /\
  (forall (status : option nat) (detail : option string) (b : Backend)
          (c : Ctx AuthContext.State),
      status <> Some 401 ->
      let r := AuthContext.login (AuthContext.Failed status detail) b c in
      fst r = Ok (AuthContext.Failure (JS.or_else detail "Login failed")) /\
      ui (snd r) = ui c /\
      toasts (world (snd r)) =
        toasts (world c) ++ [ToastError (JS.or_else detail "Login failed")]) /\
  (forall (resp : AuthContext.Response (string * User)) (b b' : Backend)
          (c : Ctx AuthContext.State),
      logged_out (ui (snd (AuthContext.logout b' (snd (AuthContext.login resp b c)))))).
Proof.
  split; [|split].
  - intros t u b c. cbv zeta. by destruct c as [[] []].
  - intros status detail b c Hne. cbv zeta.
    unfold AuthContext.login, AuthContext.request, AuthContext.responseInterceptor.
    unfold try_catch, bind, throw, ret, toast.
    destruct (decide (status = Some 401)); [done|]. simpl. by destruct c.
  - intros resp b b' c. by repeat split.
Qed.

Lemma login_outcomes_witness :
  let c := start {| AuthContext.user := None; AuthContext.loading := false;
                    AuthContext.token := Some "old"; AuthContext.stored := Some "old" |} in
  let r := AuthContext.login (AuthContext.Failed (Some 422) (Some "Bad password"))
             always_resolves c in
  fst r = Ok (AuthContext.Failure "Bad password") /\ ui (snd r) = ui c.
Proof.
  intros c r.
  destruct login_outcomes as (_ & H & _).
  destruct (H (Some 422) (Some "Bad password") always_resolves c) as (H1 & H2 & _);
    [discriminate|].
  split; [exact H1|exact H2].
Defined.

Lemma auth_step_token_stored (c c' : Ctx AuthContext.State) :
  AuthRequests.auth_step c c' ->
  AuthContext.token (ui c) = AuthContext.stored (ui c) ->
  AuthContext.token (ui c') = AuthContext.stored (ui c').
Proof.
  destruct 1 as [resp b c|resp b c|b c|resp b c|A resp b c]; intros Heq.
  - unfold AuthContext.login, AuthContext.request, AuthContext.responseInterceptor,
      AuthContext.logout.
    destruct resp as [[t u]|status detail]; [done|]. run_handler.
  - unfold AuthRequests.register, AuthContext.request, AuthContext.responseInterceptor,
      AuthContext.logout.
    destruct resp as [[]|status detail]; [done|]. run_handler.
  - done.
  - unfold AuthContext.loadUser, AuthContext.request, AuthContext.responseInterceptor,
      AuthContext.logout.
    destruct resp as [u|status detail]; run_handler.
  - unfold AuthContext.request, AuthContext.responseInterceptor, AuthContext.logout.
    destruct resp as [d|status detail]; [done|]. run_handler.
Qed.

(** The token in the state and the token in the storage stay equal under
    every sequence of provider operations (logins, registrations, logouts,
    user lookups and requests of the pages, whatever their responses). *)
Theorem token_matches_storage :
  forall (c c' : Ctx AuthContext.State),
    rtc AuthRequests.auth_step c c' ->
    AuthContext.token (ui c) = AuthContext.stored (ui c) ->
    AuthContext.token (ui c') = AuthContext.stored (ui c').
Proof.
  induction 1 as [|c1 c2 c3 Hstep _ IH]; [done|].
  intros Heq. apply IH. by apply (auth_step_token_stored c1 c2).
Qed.

Lemma token_matches_storage_witness :
  let c := start {| AuthContext.user := None; AuthContext.loading := true;
                    AuthContext.token := None; AuthContext.stored := None |} in
  let c1 := snd (AuthContext.login (AuthContext.Fulfilled ("tok", sampleUser))
                   always_resolves c) in
  let c2 := snd (AuthContext.loadUser (AuthContext.Failed (Some 500) None) (ui c1)
                   always_resolves c1) in
  AuthContext.token (ui c2) = AuthContext.stored (ui c2).
Proof.
  intros c c1 c2.
  apply (token_matches_storage c c2); [|reflexivity].
  apply (rtc_l _ c c1 c2); [exact (AuthRequests.auth_login _ always_resolves c)|].
  apply rtc_once. exact (AuthRequests.auth_loadUser _ always_resolves c1).
Defined.

(** The user lookup never throws and always ends the loading state.
    Without a token it asks nothing and keeps the state.  A lookup that
    fails removes the token from the state and from the storage; unless
    the status is 401 the user of the state is kept as it was. *)
Theorem loadUser_outcomes :
  forall (resp : AuthContext.Response User) (b : Backend) (c : Ctx AuthContext.State),
    let r := AuthContext.loadUser resp (ui c) b c in
    fst r = Ok tt /\
    AuthContext.loading (ui (snd r)) = false /\
    (JS.truthy (default "" (AuthContext.token (ui c))) = false ->
       AuthContext.user (ui (snd r)) = AuthContext.user (ui c) /\
       AuthContext.token (ui (snd r)) = AuthContext.token (ui c) /\
       AuthContext.stored (ui (snd r)) = AuthContext.stored (ui c) /\
       world (snd r) = world c) /\
    (JS.truthy (default "" (AuthContext.token (ui c))) = true ->
       match resp with
       | AuthContext.Fulfilled u =>
           AuthContext.user (ui (snd r)) = Some u /\
           AuthContext.token (ui (snd r)) = AuthContext.token (ui c)
       | AuthContext.Failed status _ =>
           AuthContext.token (ui (snd r)) = None /\
           AuthContext.stored (ui (snd r)) = None /\
           (status <> Some 401 ->
              AuthContext.user (ui (snd r)) = AuthContext.user (ui c) /\
              toasts (world (snd r)) = toasts (world c))
       end).
Proof.
  intros resp b c. cbv zeta.
  unfold AuthContext.loadUser, AuthContext.request, AuthContext.responseInterceptor,
    AuthContext.logout.
  unfold try_catch, bind, throw, ret, toast, set_state.
  destruct (JS.truthy _) eqn:Ht.
  - destruct resp as [u|status detail].
    + simpl. repeat split; done.
    + destruct (decide (status = Some 401)); simpl; repeat split; done.
  - simpl. repeat split; try done; by destruct c as [? []].
Qed.

Lemma loadUser_outcomes_witness :
  let st := {| AuthContext.user := Some sampleUser; AuthContext.loading := true;
               AuthContext.token := Some "tok"; AuthContext.stored := Some "tok" |} in
  let r := AuthContext.loadUser (AuthContext.Failed (Some 500) None) st
             always_resolves (start st) in
  AuthContext.token (ui (snd r)) = None /\ AuthContext.user (ui (snd r)) = Some sampleUser.
Proof.
  intros st r.
  destruct (loadUser_outcomes (AuthContext.Failed (Some 500) None) always_resolves (start st))
    as (_ & _ & _ & H).
  destruct (H eq_refl) as (Ht & _ & Hu).
  split; [exact Ht|]. apply Hu. discriminate.
Defined.

(** ** The route guard and the links of the bar *)

Lemma hasRequiredRole_hasRole (usr : User) (r : AuthContext.RoleArg) :
  ProtectedRoute.hasRequiredRole usr r = AuthContext.hasRole (Some usr) r.
Proof. by destruct r. Qed.

(** ProtectedRoute shows its children exactly when loading is over, a
    user is logged in and either no role is required or [hasRole] of the
    context accepts the required role; it sends to the login page exactly
    when loading is over and nobody is logged in, in particular in every
    logged-out state. *)
Theorem ProtectedRoute_admits :
  (forall (u : option User) (loading : bool) (r : option AuthContext.RoleArg),
      ProtectedRoute.ProtectedRoute u loading r = ProtectedRoute.Children <->
      loading = false /\ is_Some u /\
      (ProtectedRoute.required r = false \/
       exists role, r = Some role /\ AuthContext.hasRole u role = true)) /\
  (forall (u : option User) (loading : bool) (r : option AuthContext.RoleArg),
      ProtectedRoute.ProtectedRoute u loading r = ProtectedRoute.NavigateToLogin <->
      loading = false /\ u = None) /\
  (forall (st : AuthContext.State) (r : option AuthContext.RoleArg),
      logged_out st ->
      ProtectedRoute.ProtectedRoute (AuthContext.user st) false r
        = ProtectedRoute.NavigateToLogin).
Proof.
  split; [|split].
  - intros u loading r. unfold ProtectedRoute.ProtectedRoute.
    destruct loading; [split; [done|by intros [? _]]|].
    destruct u as [usr|]; [|split; [done|by intros (_ & [? ?] & _)]].
    destruct r as [role|].
    + destruct (ProtectedRoute.required (Some role)) eqn:Hreq.
      * rewrite hasRequiredRole_hasRole.
        destruct (AuthContext.hasRole (Some usr) role) eqn:Hrole; cbn [negb].
        -- split; [|done]. intros _. split; [done|]. split; [eauto|]. right. eauto.
        -- split; [done|]. intros (_ & _ & [?|(role' & [= <-] & ?)]); congruence.
      * split; [|done]. intros _. split; [done|]. split; [eauto|]. by left.
    + split; [|done]. intros _. split; [done|]. split; [eauto|]. by left.
  - intros u loading r. unfold ProtectedRoute.ProtectedRoute.
    destruct loading; [split; [done|by intros [? _]]|].
    destruct u as [usr|]; [|done].
    split; [|by intros [_ ?]].
    destruct r as [role|]; [|done].
    destruct (ProtectedRoute.required _); [|done].
    by destruct (negb _).
  - intros st r (_ & _ & Hu). by rewrite Hu.
Qed.

Lemma ProtectedRoute_admits_witness :
  ProtectedRoute.ProtectedRoute
    (AuthContext.user {| AuthContext.user := None; AuthContext.loading := false;
                         AuthContext.token := None; AuthContext.stored := None |})
    false (Some (AuthContext.OneRole "admin"))
  = ProtectedRoute.NavigateToLogin.
Proof.
  destruct ProtectedRoute_admits as (_ & _ & H).
  apply H. repeat split.
Defined.

Lemma includes_false_iff (l : list string) (x : string) :
  AuthContext.includes l x = false <-> ~ In x l.
Proof. rewrite <- includes_true_iff. by destruct (AuthContext.includes l x). Qed.

Lemma eqb_false_iff (x y : string) : String.eqb x y = false <-> x <> y.
Proof. apply String.eqb_neq. Qed.

(** Every link that the bar shows to a user, the logo included, leads to
    a page that the route table opens to that user; and each of the four
    pages of the bar (dashboard, studio, agent portal, analytics) has its
    link in the bar of every user it admits. *)
Theorem Navbar_links_admitted :
  (forall (u : option User) (path : string),
      In path (ProtectedRoute.Navbar u) ->
      ProtectedRoute.visit u false path = Some ProtectedRoute.Children) /\
  (forall (u : option User) (path : string),
      In path ["/dashboard"; "/studio"; "/agent"; "/analytics"] ->
      ProtectedRoute.visit u false path = Some ProtectedRoute.Children ->
      In path (ProtectedRoute.Navbar u)).
Proof.
  split.
  - intros [usr|] path; [|done].
    unfold ProtectedRoute.Navbar, ProtectedRoute.filteredNavigation.
    intros [<-|(item & <- & Hitem)%in_map_iff]; [done|].
    apply filter_In in Hitem as [Hin Hrole].
    unfold ProtectedRoute.navigation in Hin.
    destruct Hin as [<-|[<-|[<-|[<-|[]]]]]; cbn [ProtectedRoute.roles] in Hrole;
      apply includes_true_iff in Hrole;
      cbv [ProtectedRoute.visit ProtectedRoute.href ProtectedRoute.guard_of
             ProtectedRoute.routes List.find fst snd option_map String.eqb Ascii.eqb
             Bool.eqb ProtectedRoute.ProtectedRoute ProtectedRoute.required JS.truthy negb];
      try done.
    + unfold ProtectedRoute.hasRequiredRole.
      destruct Hrole as [<-|[]]. done.
    + unfold ProtectedRoute.hasRequiredRole.
      apply includes_true_iff in Hrole. by rewrite Hrole.
    + unfold ProtectedRoute.hasRequiredRole.
      destruct Hrole as [<-|[]]. done.
  - intros [usr|] path Hpath; [|by destruct Hpath as [<-|[<-|[<-|[<-|[]]]]]].
    unfold ProtectedRoute.Navbar, ProtectedRoute.filteredNavigation.
    destruct Hpath as [<-|[<-|[<-|[<-|[]]]]]; [intros _; by left|..];
      cbv [ProtectedRoute.visit ProtectedRoute.guard_of
             ProtectedRoute.routes List.find fst snd option_map String.eqb Ascii.eqb
             Bool.eqb ProtectedRoute.ProtectedRoute ProtectedRoute.required JS.truthy];
      unfold ProtectedRoute.hasRequiredRole;
      intros Hvisit; right; apply in_map_iff.
    + destruct (String.eqb (user_role usr) "admin") eqn:E; [|done].
      apply eqb_true_iff in E.
      exists {| ProtectedRoute.name := "Authoring Studio"; ProtectedRoute.href := "/studio";
                ProtectedRoute.roles := ["admin"] |}.
      split; [done|]. apply filter_In. split; [simpl; auto|].
      apply includes_true_iff. simpl. auto.
    + destruct (AuthContext.includes _ _) eqn:E; [|done].
      exists {| ProtectedRoute.name := "Agent Portal"; ProtectedRoute.href := "/agent";
                ProtectedRoute.roles := ["agent"; "admin"] |}.
      split; [done|]. apply filter_In. split; [simpl; auto|done].
    + destruct (String.eqb (user_role usr) "admin") eqn:E; [|done].
      apply eqb_true_iff in E.
      exists {| ProtectedRoute.name := "Analytics"; ProtectedRoute.href := "/analytics";
                ProtectedRoute.roles := ["admin"] |}.
      split; [done|]. apply filter_In. split; [simpl; auto|].
      apply includes_true_iff. simpl. auto.
Qed.

Lemma Navbar_links_admitted_witness :
  ProtectedRoute.visit (Some sampleUser) false "/agent" = Some ProtectedRoute.Children.
Proof.
  destruct Navbar_links_admitted as (H & _).
  apply (H (Some sampleUser) "/agent").
  vm_compute. auto.
Defined.

(** ** Recording answers (customer widget) *)

Lemma handleInputChange_answers (b : Backend) (c : Ctx CustomerWidget.State)
    (inputId value : string) :
  snd (CustomerWidget.handleInputChange inputId value b c) =
  {| ui := CustomerWidget.setAnswers (fun prev => <[inputId := value]> prev) (ui c);
     world := world c |}.
Proof. reflexivity. Qed.

(** A filter that returns had no throwing callback. *)
Lemma missingInputs_Ok_readable (step : Node) (ans : gmap string string) (r : list Input) :
  CustomerWidget.missingInputs step ans = Ok r -> answers_readable step ans.
Proof.
  unfold CustomerWidget.missingInputs, answers_readable. revert r.
  induction (CustomerWidget.requiredInputs step) as [|i l IH]; intros r; simpl;
    [constructor|].
  unfold CustomerWidget.is_missing at 1.
  destruct (ans !! input_id i) as [a|] eqn:Ha; simpl.
  - destruct (filter_throwing _ l) as [r'|e] eqn:E; [|done].
    intros _. apply List.Forall_cons; [congruence|by apply (IH r')].
  - destruct (CustomerWidget.inherited (input_id i)) eqn:Hi; [done|].
    destruct (filter_throwing _ l) as [r'|e] eqn:E; [|done].
    intros _. apply List.Forall_cons; [done|by apply (IH r')].
Qed.

(** An answer more keeps the answers readable. *)
Lemma answers_readable_insert (step : Node) (ans : gmap string string)
    (inputId value : string) :
  answers_readable step ans -> answers_readable step (<[inputId := value]> ans).
Proof.
  unfold answers_readable. apply List.Forall_impl. intros input H Hnone.
  destruct (decide (input_id input = inputId)) as [E|E].
  - rewrite E, lookup_insert_eq in Hnone. done.
  - rewrite lookup_insert_ne in Hnone by done. auto.
Qed.

(** The validation throws nothing but a TypeError. *)
Lemma missingInputs_throws_TypeError (step : Node) (ans : gmap string string) (e : Exn) :
  CustomerWidget.missingInputs step ans = Throw e -> e = TypeError.
Proof.
  unfold CustomerWidget.missingInputs.
  induction (CustomerWidget.requiredInputs step) as [|i l IH]; simpl; [done|].
  unfold CustomerWidget.is_missing at 1.
  destruct (ans !! input_id i) as [a|]; simpl.
  - destruct (filter_throwing _ l) as [r'|e']; [done|]. intros [= <-]. by apply IH.
  - destruct (CustomerWidget.inherited (input_id i)); [by intros [= <-]|].
    destruct (filter_throwing _ l) as [r'|e']; [done|]. intros [= <-]. by apply IH.
Qed.

Lemma unanswered_insert (step : Node) (ans : gmap string string) (inputId value : string) :
  JS.trim value <> "" ->
  CustomerWidget.unanswered step (<[inputId := value]> ans) =
  List.filter (fun input => negb (String.eqb (input_id input) inputId))
              (CustomerWidget.unanswered step ans).
Proof.
  intros Hvalue. unfold CustomerWidget.unanswered.
  induction (CustomerWidget.requiredInputs step) as [|i l IH]; [done|].
  cbn [List.filter]. destruct (String.eqb (input_id i) inputId) eqn:E.
  - apply eqb_true_iff in E. rewrite E, lookup_insert_eq.
    cbn [JS.truthy_trim]. destruct (JS.trim value); [done|].
    cbn [JS.truthy negb]. rewrite IH.
    destruct (negb (JS.truthy_trim _)); [|done].
    cbn [List.filter]. rewrite <- E at 1. rewrite String.eqb_refl. done.
  - apply eqb_false_iff in E. rewrite lookup_insert_ne by done.
    destruct (negb (JS.truthy_trim _)); [|done].
    cbn [List.filter]. apply eqb_false_iff in E. rewrite E. cbn [negb].
    by rewrite IH.
Qed.

(** Recording an answer touches the answer map only: the new value
    replaces any earlier one for that input and the other inputs keep
    theirs.  For the validation of [handleStepComplete]: when it returned
    a list of missing inputs before, a value that is not blank makes it
    return that list without the inputs of that id, so it never adds one;
    a blank value leaves every required input with that id in the list
    that the validation returns; and the validation throws after the change
    only if it threw before (an unanswered required input named like an
    inherited property is still unanswered). *)
Theorem answer_recorded :
  forall (b : Backend) (c : Ctx CustomerWidget.State) (inputId value : string)
         (step : Node),
    let c' := snd (CustomerWidget.handleInputChange inputId value b c) in
    let before := CustomerWidget.missingInputs step (CustomerWidget.answers (ui c)) in
    let after := CustomerWidget.missingInputs step (CustomerWidget.answers (ui c')) in
    CustomerWidget.answers (ui c') !! inputId = Some value /\
    (forall other, other <> inputId ->
       CustomerWidget.answers (ui c') !! other = CustomerWidget.answers (ui c) !! other) /\
    CustomerWidget.stepIndex (ui c') = CustomerWidget.stepIndex (ui c) /\
    CustomerWidget.currentStep (ui c') = CustomerWidget.currentStep (ui c) /\
    world c' = world c /\
    (forall missing, JS.trim value <> "" -> before = Ok missing ->
       after = Ok (List.filter (fun input => negb (String.eqb (input_id input) inputId))
                               missing)) /\
    (forall missing, JS.trim value = "" -> after = Ok missing ->
       forall input, In input (CustomerWidget.requiredInputs step) ->
                     input_id input = inputId -> In input missing) /\
    (forall e, after = Throw e -> before = Throw e).
Proof.
  intros b c inputId value step. cbv zeta. rewrite handleInputChange_answers.
  cbn [ui world CustomerWidget.setAnswers CustomerWidget.answers
         CustomerWidget.stepIndex CustomerWidget.currentStep].
  split; [apply lookup_insert_eq|].
  split; [intros other Hne; by apply lookup_insert_ne|].
  do 3 (split; [done|]).
  split; [|split].
  - intros missing Hvalue Hbefore.
    pose proof (missingInputs_Ok_readable _ _ _ Hbefore) as Hread.
    apply missingInputs_filter_Ok in Hbefore. subst missing.
    rewrite missingInputs_filter_readable by by apply answers_readable_insert.
    by rewrite unanswered_insert.
  - intros missing Hvalue Hafter input Hin Hid.
    apply missingInputs_filter_Ok in Hafter. subst missing.
    apply filter_In. split; [done|].
    rewrite Hid, lookup_insert_eq. cbn [JS.truthy_trim]. by rewrite Hvalue.
  - intros e Hafter.
    destruct (CustomerWidget.missingInputs step (CustomerWidget.answers (ui c)))
      as [missing|e'] eqn:Hbefore.
    + apply missingInputs_Ok_readable in Hbefore.
      rewrite missingInputs_filter_readable in Hafter
        by by apply answers_readable_insert.
      done.
    + apply missingInputs_throws_TypeError in Hafter, Hbefore. congruence.
Qed.

(** On step b, whose input q1 is required, the answer "yes" empties the
    list of missing inputs. *)
Lemma answer_recorded_witness :
  let c := start (customerAt [stepB] 0 (Some stepB) ∅ "") in
  let c' := snd (CustomerWidget.handleInputChange "q1" "yes" always_resolves c) in
  CustomerWidget.missingInputs stepB (CustomerWidget.answers (ui c)) =
    Ok [{| input_id := "q1"; input_required := true |}] /\
  CustomerWidget.missingInputs stepB (CustomerWidget.answers (ui c')) = Ok [].
Proof.
  intros c c'.
  destruct (answer_recorded always_resolves c "q1" "yes" stepB)
    as (_ & _ & _ & _ & _ & H & _).
  split; [reflexivity|].
  apply (H [{| input_id := "q1"; input_required := true |}]);
    [vm_compute; discriminate|reflexivity].
Defined.

(** ** The first step (customer widget) *)

Lemma findIndex_from_bound {A} (p : A -> bool) (l : list A) (i : Z) :
  (findIndex_from p l i = -1 \/
   i <= findIndex_from p l i < i + Z.of_nat (length l))%Z.
Proof.
  revert i. induction l as [|x l IH]; intros i; simpl; [by left|].
  destruct (p x); [right; lia|].
  destruct (IH (i + 1)%Z) as [H|H]; [by left|right; lia].
Qed.

Lemma targetStepIndex_bound (ns : list Node) (stepSlug : option string) :
  0 < length ns -> CustomerWidget.targetStepIndex ns stepSlug < length ns.
Proof.
  intros Hlen. unfold CustomerWidget.targetStepIndex.
  destruct stepSlug as [s|]; [|done].
  destruct (JS.truthy s); [|done].
  unfold findIndex.
  destruct (findIndex_from_bound (CustomerWidget.matches s) ns 0) as [H|H].
  - rewrite H. simpl. done.
  - destruct (_ =? _)%Z eqn:E; [simpl; lia|]. lia.
Qed.

(** The widget never starts outside the graph: on a graph with at least
    one node the initial index is within the node sequence and the
    current step is the node at that index; a slug or id that matches a
    node selects a matching node; on a graph without nodes nothing is set,
    so the widget shows "Guide not found". *)
Theorem initStep_within_graph :
  (forall (v : Version) (stepSlug : option string) (b : Backend)
          (c : Ctx CustomerWidget.State),
      0 < length (nodes v) ->
      let c' := snd (CustomerWidget.initStep v stepSlug b c) in
      CustomerWidget.stepIndex (ui c') < length (nodes v) /\
      (exists n, CustomerWidget.currentStep (ui c') = Some n /\
                 nodes v !! CustomerWidget.stepIndex (ui c') = Some n) /\
      (forall s n, stepSlug = Some s -> JS.truthy s = true ->
                   In n (nodes v) -> CustomerWidget.matches s n = true ->
                   exists m, CustomerWidget.currentStep (ui c') = Some m /\
                             CustomerWidget.matches s m = true)) /\
  (forall (stepSlug : option string) (b : Backend) (c : Ctx CustomerWidget.State),
      CustomerWidget.initStep {| nodes := [] |} stepSlug b c = (Ok tt, c)).
Proof.
  split; [|done].
  intros v stepSlug b c Hlen. cbv zeta. unfold CustomerWidget.initStep.
  pose proof (targetStepIndex_bound (nodes v) stepSlug Hlen) as Hb.
  destruct (0 <? length (nodes v))%nat eqn:E; [|apply Nat.ltb_ge in E; lia].
  cbn. split; [done|].
  destruct (lookup_lt_is_Some_2 (nodes v) _ Hb) as [n Hn].
  split; [exists n; by rewrite Hn|].
  intros s m -> Hs Hin Hm.
  unfold CustomerWidget.targetStepIndex in *. rewrite Hs in *.
  unfold findIndex in *. rewrite findIndex_from_spec in *.
  destruct (list_find _ (nodes v)) as [[j y]|] eqn:Hfind.
  - apply list_find_Some in Hfind as (Hj & Hy & _).
    exists y. split; [|done].
    replace (Z.to_nat (if (0 + Z.of_nat j =? -1)%Z then 0%Z else (0 + Z.of_nat j)%Z))
      with j by (destruct (_ =? _)%Z eqn:E'; [apply Z.eqb_eq in E'|]; lia).
    done.
  - apply list_find_None in Hfind. rewrite Forall_forall in Hfind.
    apply list_elem_of_In, Hfind in Hin. done.
Qed.

Lemma initStep_within_graph_witness :
  let c' := snd (CustomerWidget.initStep {| nodes := [stepA; stepB] |} (Some "b")
                   always_resolves (start (customerAt [stepA; stepB] 0 None ∅ ""))) in
  exists m, CustomerWidget.currentStep (ui c') = Some m /\
            CustomerWidget.matches "b" m = true.
Proof.
  intros c'.
  destruct initStep_within_graph as (H & _).
  destruct (H {| nodes := [stepA; stepB] |} (Some "b") always_resolves
              (start (customerAt [stepA; stepB] 0 None ∅ ""))) as (_ & _ & Hm);
    [simpl; lia|].
  apply (Hm "b" stepB); [reflexivity|reflexivity|simpl; auto|reflexivity].
Defined.

(** ** Position and current step stay consistent *)

Lemma filter_length_le {A} (p : A -> bool) (l : list A) :
  length (List.filter p l) <= length l.
Proof.
  induction l as [|x l IH]; simpl; [done|]. destruct (p x); simpl; lia.
Qed.

(** What an advance of the customer widget does to the state: nothing, a
    move to the next visible step, or the completion card. *)
Lemma customer_advance_ui (b : Backend) (c : Ctx CustomerWidget.State) :
  let st := ui c in
  let st' := ui (click CustomerWidget.handleStepComplete b c) in
  st' = st \/
  (exists v, CustomerWidget.version st = Some v /\
     CustomerWidget.stepIndex st + 1 < length (visibleSteps (nodes v) customer) /\
     st' = CustomerWidget.setAnswers (fun _ => ∅)
             (CustomerWidget.setCurrentStep
                (visibleSteps (nodes v) customer !! (CustomerWidget.stepIndex st + 1))
                (CustomerWidget.setStepIndex (CustomerWidget.stepIndex st + 1) st))) \/
  st' = CustomerWidget.setCurrentStep (Some CustomerWidget.completionCard) st.
Proof.
  destruct c as [st [log ts cb]]. unfold click. cbn [ui]. cbv zeta.
  unfold CustomerWidget.handleStepComplete, CustomerWidget.completeSession.
  unfold try_catch, bind, deref, of_result, axios, toast, set_state, ret, throw.
  reduce_ctx.
  destruct (CustomerWidget.currentStep st) as [step|]; reduce_ctx; [|by left].
  destruct (CustomerWidget.missingInputs _ _) as [missing|e]; reduce_ctx;
    [|by left].
  destruct (0 <? length missing)%nat; reduce_ctx; [by left|].
  destruct (CustomerWidget.session st) as [s|]; reduce_ctx; [|by left].
  destruct (b log _); reduce_ctx; [|by left].
  destruct (CustomerWidget.version st) as [v|] eqn:Hv; reduce_ctx; [|by left].
  destruct (CustomerWidget.stepIndex st + 1
            <? length (List.filter not_agent_only (nodes v)))%nat eqn:Hlt; reduce_ctx.
  - apply Nat.ltb_lt in Hlt. right. left. exists v. done.
  - destruct (b _ (PostSessionComplete _)); reduce_ctx; [|by left].
    destruct (b _ (PostEvent _)); reduce_ctx; [|by left].
    right. by right.
Qed.

Lemma customer_step_in_range (b : Backend) (c c' : Ctx CustomerWidget.State) :
  customer_step b c c' -> customer_in_range (ui c) -> customer_in_range (ui c').
Proof.
  intros Hstep (v & Hv & Hlt & Hcur).
  destruct Hstep as [i x c|c|c|x c|m c|f c]; try (by exists v).
  - destruct (customer_advance_ui b c) as [H|[(v' & Hv' & Hlt' & H)|H]];
      unfold click in H; rewrite H.
    + by exists v.
    + assert (v' = v) by congruence. subst v'. exists v.
      split; [done|]. split; [done|]. by left.
    + exists v. split; [done|]. split; [done|]. by right.
  - destruct (customer_escalation_traversal b c) as (Hi & _ & Hs).
    unfold click in Hi, Hs. exists v.
    rewrite (customer_step_version b c _ (customer_escalate b c)), Hi, Hs. done.
Qed.

(** Once the index of the customer widget is within the visible sequence
    and the step shown is the visible step at that index (or the
    completion card), this stays so under every sequence of handler runs,
    whatever the backend answers: "Step N of M" never shows N above M and
    the widget never runs off the end of the graph. *)
Theorem customer_stays_in_range :
  forall (b : Backend) (c c' : Ctx CustomerWidget.State),
    rtc (customer_step b) c c' ->
    customer_in_range (ui c) -> customer_in_range (ui c').
Proof.
  induction 1 as [|c1 c2 c3 Hstep _ IH]; [done|].
  intros H. apply IH. by apply (customer_step_in_range b c1 c2).
Qed.

Lemma customer_stays_in_range_witness :
  let G := [stepX; stepA; stepB] in
  let c := start (customerAt G 0 (Some stepA) ∅ "") in
  let c' := click CustomerWidget.handleStepComplete always_resolves c in
  customer_in_range (ui c').
Proof.
  intros G c c'.
  apply (customer_stays_in_range always_resolves c c').
  - apply rtc_once. exact (customer_advance always_resolves c).
  - exists {| nodes := G |}. split; [reflexivity|]. split; [simpl; lia|]. left. reflexivity.
Defined.

(** What a click on the navigation of the agent portal does to the
    state: nothing or a move to the next node. *)
Lemma agent_navigation_ui (b : Backend) (c : Ctx AgentPortal.State) :
  let st := ui c in
  let st' := ui (click AgentPortal.navigationClick b c) in
  st' = st \/
  (exists v, AgentPortal.currentVersion st = Some v /\
     AgentPortal.stepIndex st + 1 < length (nodes v) /\
     st' = AgentPortal.setAnswers (fun _ => ∅)
             (AgentPortal.setCurrentStep (nodes v !! (AgentPortal.stepIndex st + 1))
                (AgentPortal.setStepIndex (AgentPortal.stepIndex st + 1) st))).
Proof.
  destruct c as [st [log ts cb]]. unfold click. cbn [ui]. cbv zeta.
  unfold AgentPortal.navigationClick.
  destruct (_ <? _)%Z.
  - unfold AgentPortal.handleStepComplete, AgentPortal.completeSession,
      AgentPortal.generateCrmNote.
    unfold try_catch, bind, deref, axios, toast, set_state, clipboard_writeText, ret, throw.
    reduce_ctx.
    destruct (AgentPortal.session st) as [s|]; reduce_ctx; [|by left].
    destruct (AgentPortal.currentStep st) as [step|]; reduce_ctx; [|by left].
    destruct (b log _); reduce_ctx; [|by left].
    destruct (AgentPortal.currentVersion st) as [v|] eqn:Hv; reduce_ctx; [|by left].
    destruct (AgentPortal.stepIndex st + 1 <? length (nodes v))%nat eqn:Hlt; reduce_ctx.
    + apply Nat.ltb_lt in Hlt. right. exists v. done.
    + destruct (b _ (PostSessionComplete _)); reduce_ctx; [|by left].
      destruct (b _ (PostEvent _)); reduce_ctx; [|by left].
      destruct (AgentPortal.currentGuide st); reduce_ctx; [|by left].
      destruct (AgentPortal.user st); reduce_ctx; by left.
  - left. unfold AgentPortal.completeSession, AgentPortal.generateCrmNote.
    run_handler.
Qed.

Lemma agent_step_in_range (b : Backend) (c c' : Ctx AgentPortal.State) :
  agent_step b c c' -> agent_in_range (ui c) -> agent_in_range (ui c').
Proof.
  intros Hstep (v & Hv & Hlt & Hcur).
  destruct Hstep as [i x c|c|c|f c|c]; try (by exists v).
  - destruct (agent_navigation_ui b c) as [H|(v' & Hv' & Hlt' & H)];
      unfold click in H; rewrite H.
    + by exists v.
    + assert (v' = v) by congruence. subst v'. by exists v.
  - rewrite agent_escalation_state. by exists v.
  - rewrite handleCrmSubmit_ui. by exists v.
Qed.

(** Once the index of the agent portal is within the node sequence and
    the step shown is the node at that index, this stays so under every
    sequence of handler runs (answers, navigation, escalation, CRM form),
    whatever the backend answers. *)
Theorem agent_stays_in_range :
  forall (b : Backend) (c c' : Ctx AgentPortal.State),
    rtc (agent_step b) c c' ->
    agent_in_range (ui c) -> agent_in_range (ui c').
Proof.
  induction 1 as [|c1 c2 c3 Hstep _ IH]; [done|].
  intros H. apply IH. by apply (agent_step_in_range b c1 c2).
Qed.

Lemma agent_stays_in_range_witness :
  let G := [stepA; stepB] in
  let c := start (agentAt G 0 (Some stepA) ∅ "crm-7") in
  let c' := click AgentPortal.navigationClick always_resolves c in
  agent_in_range (ui c').
Proof.
  intros G c c'.
  apply (agent_stays_in_range always_resolves c c').
  - apply rtc_once. exact (agent_navigation always_resolves c).
  - exists {| nodes := G |}. split; [reflexivity|]. split; [simpl; lia|]. reflexivity.
Defined.

(** ** The navigation buttons *)

Lemma completions_of_snoc (l : list (Request * Outcome)) (ts : list Toast)
    (cb : list CrmNote) (r : Request) (o : Outcome) :
  completions_of {| requests := l ++ [(r, o)]; toasts := ts; clipboard := cb |} =
  completions_of {| requests := l; toasts := ts; clipboard := cb |} ++
  match r with
  | PostSessionComplete sid => [sid]
  | _ => []
  end.
Proof.
  unfold completions_of. cbn [requests]. rewrite omap_app. f_equal.
  by destruct r.
Qed.

(** The label of the customer's button tells what a click does: once the
    required inputs are filled and the step_completed call is accepted,
    "Continue" moves to the next visible step and asks for no session
    completion, and "Complete" keeps the index and asks for the completion
    of the session. *)
Theorem buttonLabel_announces_click :
  forall (b : Backend) (c : Ctx CustomerWidget.State) (s : Session) (step : Node)
         (v : Version),
    CustomerWidget.currentStep (ui c) = Some step ->
    CustomerWidget.session (ui c) = Some s ->
    CustomerWidget.version (ui c) = Some v ->
    CustomerWidget.missingInputs step (CustomerWidget.answers (ui c)) = Ok [] ->
    b (requests (world c))
      (PostEvent (stepCompleted s step (CustomerWidget.answers (ui c)))) = Resolved ->
    let c' := click CustomerWidget.handleStepComplete b c in
    (CustomerLoad.buttonLabel (ui c) v = "Continue" \/
     CustomerLoad.buttonLabel (ui c) v = "Complete") /\
    (CustomerLoad.buttonLabel (ui c) v = "Continue" ->
       CustomerWidget.stepIndex (ui c') = CustomerWidget.stepIndex (ui c) + 1 /\
       completions_of (world c') = completions_of (world c)) /\
    (CustomerLoad.buttonLabel (ui c) v = "Complete" ->
       CustomerWidget.stepIndex (ui c') = CustomerWidget.stepIndex (ui c) /\
       completions_of (world c') = completions_of (world c) ++ [session_id s]).
Proof.
  intros b [st [log ts cb]] s step v Hstep Hs Hv Hmiss Hb. cbv zeta.
  unfold click. cbn [ui world requests] in *.
  unfold stepCompleted in Hb.
  unfold CustomerLoad.buttonLabel.
  unfold CustomerWidget.handleStepComplete, CustomerWidget.completeSession.
  unfold try_catch, bind, deref, of_result, axios, toast, set_state, ret, throw.
  reduce_ctx.
  rewrite Hstep. reduce_ctx. rewrite Hmiss. reduce_ctx.
  change (0 <? length (@nil Input))%nat with false. reduce_ctx.
  rewrite Hs. reduce_ctx. rewrite Hb. clear Hb. reduce_ctx. rewrite Hv. reduce_ctx.
  destruct (_ <? _)%Z eqn:Hz.
  - apply Z.ltb_lt in Hz.
    destruct (CustomerWidget.stepIndex st + 1
              <? length (List.filter not_agent_only (nodes v)))%nat eqn:Hlt;
      [|apply Nat.ltb_ge in Hlt; lia].
    reduce_ctx. split; [by left|]. split; [|done].
    intros _. split; [done|]. by rewrite completions_of_snoc, app_nil_r.
  - apply Z.ltb_ge in Hz.
    destruct (CustomerWidget.stepIndex st + 1
              <? length (List.filter not_agent_only (nodes v)))%nat eqn:Hlt;
      [apply Nat.ltb_lt in Hlt; lia|].
    reduce_ctx. split; [by right|]. split; [done|]. intros _.
    destruct (b _ (PostSessionComplete _)); reduce_ctx.
    + destruct (b _ (PostEvent _)); reduce_ctx;
        rewrite !completions_of_snoc, !app_nil_r; done.
    + rewrite !completions_of_snoc, !app_nil_r; done.
Qed.

Lemma buttonLabel_announces_click_witness :
  let c := start (customerAt [stepA; stepB] 0 (Some stepA) ∅ "") in
  let c' := click CustomerWidget.handleStepComplete always_resolves c in
  CustomerWidget.stepIndex (ui c') = 1 /\ completions_of (world c') = [].
Proof.
  intros c c'.
  destruct (buttonLabel_announces_click always_resolves c sampleSession stepA
              {| nodes := [stepA; stepB] |} eq_refl eq_refl eq_refl eq_refl eq_refl)
    as (_ & H & _).
  apply H. reflexivity.
Defined.

(** While the agent portal shows "Next Step" a click never completes the
    session: it sends at most the one step_completed event, no session
    completion and no session_completed event, and the index stays or
    grows by one. *)
Theorem next_step_never_completes :
  forall (b : Backend) (c : Ctx AgentPortal.State),
    (Z.of_nat (AgentPortal.stepIndex (ui c))
       < Z.of_nat (AgentPortal.denominator (ui c)) - 1)%Z ->
    let c' := click AgentPortal.navigationClick b c in
    completions_of (world c') = completions_of (world c) /\
    events_of "session_completed" (world c') = events_of "session_completed" (world c) /\
    length (requests (world c')) <= length (requests (world c)) + 1 /\
    (AgentPortal.stepIndex (ui c') = AgentPortal.stepIndex (ui c) \/
     AgentPortal.stepIndex (ui c') = AgentPortal.stepIndex (ui c) + 1).
Proof.
  intros b [st [log ts cb]]. unfold click. cbn [ui world requests]. intros Hnext. cbv zeta.
  unfold AgentPortal.navigationClick.
  destruct (_ <? _)%Z eqn:E; [|apply Z.ltb_ge in E; lia].
  unfold AgentPortal.denominator in Hnext.
  unfold AgentPortal.handleStepComplete.
  unfold try_catch, bind, deref, axios, toast, set_state, ret, throw. reduce_ctx.
  destruct (AgentPortal.session st) as [s|]; reduce_ctx; [|repeat split; auto; lia].
  destruct (AgentPortal.currentStep st) as [step|]; reduce_ctx; [|repeat split; auto; lia].
  destruct (b log _); reduce_ctx;
    [|rewrite completions_of_snoc, events_of_snoc, !app_nil_r, length_app;
      repeat split; auto; simpl; lia].
  destruct (AgentPortal.currentVersion st) as [v|]; [|simpl in Hnext; lia].
  reduce_ctx.
  destruct (AgentPortal.stepIndex st + 1 <? length (nodes v))%nat eqn:Hlt;
    [|apply Nat.ltb_ge in Hlt; lia].
  reduce_ctx. rewrite completions_of_snoc, events_of_snoc, !app_nil_r, length_app.
  repeat split; auto; simpl; lia.
Qed.

Lemma next_step_never_completes_witness :
  let c := start (agentAt [stepA; stepB] 0 (Some stepA) ∅ "crm-7") in
  let c' := click AgentPortal.navigationClick always_resolves c in
  completions_of (world c') = [] /\ AgentPortal.stepIndex (ui c') = 1.
Proof.
  intros c c'.
  destruct (next_step_never_completes always_resolves c) as (H & _);
    [vm_compute; reflexivity|].
  split; [exact H|reflexivity].
Defined.

(** ** The escalation dialog (customer widget) *)

(** The dialog closes and the message is cleared only when the escalation
    and its escalation_submitted event were both accepted.  A blank
    message sends nothing and leaves the state as it was, with the
    notification "Please describe your issue".  A rejected escalation or a
    rejected event leave the dialog, the message and the rest of the state
    as they were, so that the user can submit again; the notification
    "Failed to submit escalation" then follows the two notifications of
    the response interceptor when the status is 401. *)
Theorem escalation_dialog :
  (forall (b : Backend) (c : Ctx CustomerWidget.State) (s : Session) (g : Guide)
          (step : Node) (v : Version),
      JS.trim (CustomerWidget.escalationMessage (ui c)) <> "" ->
      CustomerWidget.session (ui c) = Some s ->
      CustomerWidget.guide (ui c) = Some g ->
      CustomerWidget.currentStep (ui c) = Some step ->
      CustomerWidget.version (ui c) = Some v ->
      let d := CustomerWidget.escalationData (ui c) s g step v in
      let o1 := b (requests (world c)) (PostEscalation d) in
      let o2 := b (requests (world c) ++ [(PostEscalation d, o1)])
                  (PostEvent (escalationSubmitted s step d)) in
      let c' := click CustomerWidget.handleEscalation b c in
      (o1 = Resolved -> o2 = Resolved ->
         CustomerWidget.showEscalation (ui c') = false /\
         CustomerWidget.escalationMessage (ui c') = "" /\
         toasts (world c') = toasts (world c) ++
           [ToastSuccess "Your issue has been escalated to our support team. They will contact you soon."]) /\
      (forall status,
         o1 = Rejected status \/ (o1 = Resolved /\ o2 = Rejected status) ->
         ui c' = ui c /\
         toasts (world c') = toasts (world c) ++ interceptor_toasts status
                               ++ [ToastError "Failed to submit escalation"])) /\
  (forall (b : Backend) (c : Ctx CustomerWidget.State),
      JS.trim (CustomerWidget.escalationMessage (ui c)) = "" ->
      let c' := click CustomerWidget.handleEscalation b c in
      ui c' = ui c /\
      requests (world c') = requests (world c) /\
      toasts (world c') = toasts (world c) ++ [ToastError "Please describe your issue"]) /\
  (forall (b : Backend) (c : Ctx CustomerWidget.State),
      let c' := click CustomerWidget.handleEscalation b c in
      ui c' = ui c \/
      (CustomerWidget.showEscalation (ui c') = false /\
       CustomerWidget.escalationMessage (ui c') = "")).
Proof.
  split; [|split].
  - intros b [st [log ts cb]] s g step v Hmsg Hs Hg Hstep Hv. cbv zeta.
    unfold click. cbn [ui world requests toasts] in *.
    unfold CustomerWidget.handleEscalation, escalationSubmitted.
    unfold try_catch, bind, deref, axios, toast, set_state, ret, throw.
    destruct (JS.trim _) eqn:E; [done|]. cbn [JS.truthy negb]. reduce_ctx.
    rewrite Hs, Hg, Hstep, Hv. reduce_ctx.
    destruct (b log _) as [|s1]; reduce_ctx.
    + destruct (b _ (PostEvent _)) as [|s2]; reduce_ctx; split.
      * intros _ _. done.
      * intros status [?|[_ ?]]; done.
      * intros _ ?. done.
      * intros status [?|[_ [= <-]]]; [done|]. by rewrite <- app_assoc.
    + split; [intros ?; done|].
      intros status [[= <-]|[? _]]; [|done]. by rewrite <- app_assoc.
  - intros b [st [log ts cb]] Hmsg. cbv zeta.
    unfold click. cbn [ui world requests toasts] in *.
    unfold CustomerWidget.handleEscalation.
    unfold try_catch, bind, deref, axios, toast, set_state, ret, throw.
    rewrite Hmsg. done.
  - intros b c. cbv zeta. unfold click, CustomerWidget.handleEscalation.
    destruct c as [st w].
    unfold try_catch, bind, deref, axios, toast, set_state, ret, throw. reduce_ctx.
    destruct (negb _); reduce_ctx; [by left|].
    destruct (CustomerWidget.session st); reduce_ctx; [|by left].
    destruct (CustomerWidget.guide st); reduce_ctx; [|by left].
    destruct (CustomerWidget.currentStep st); reduce_ctx; [|by left].
    destruct (CustomerWidget.version st); reduce_ctx; [|by left].
    destruct (b _ (PostEscalation _)); reduce_ctx; [|by left].
    destruct (b _ (PostEvent _)); reduce_ctx; [|by left].
    by right.
Qed.

(** A submission that the backend accepts closes the dialog; one that it
    rejects with status 401 keeps the dialog and its message. *)
Lemma escalation_dialog_witness :
  let st := CustomerWidget.setShowEscalation true
              (customerAt [stepA] 0 (Some stepA) ∅ "help me") in
  let c' := click CustomerWidget.handleEscalation always_resolves (start st) in
  let c'' := click CustomerWidget.handleEscalation (always_rejects (Some 401)) (start st) in
  (CustomerWidget.showEscalation (ui c') = false /\
   CustomerWidget.escalationMessage (ui c') = "") /\
  (ui c'' = st /\
   toasts (world c'') = [ToastSuccess "Logged out successfully";
                         ToastError "Session expired. Please login again.";
                         ToastError "Failed to submit escalation"]).
Proof.
  intros st c' c''.
  destruct escalation_dialog as (H & _).
  split.
  - destruct (H always_resolves (start st) sampleSession sampleGuide stepA
                {| nodes := [stepA] |}) as (Hok & _);
      [vm_compute; discriminate|reflexivity..|].
    destruct Hok as (H1 & H2 & _); [reflexivity..|].
    split; [exact H1|exact H2].
  - destruct (H (always_rejects (Some 401)) (start st) sampleSession sampleGuide stepA
                {| nodes := [stepA] |}) as (_ & Hrej);
      [vm_compute; discriminate|reflexivity..|].
    apply (Hrej (Some 401)). left. reflexivity.
Defined.

(** ** The CRM note (agent portal) *)



(** ** Loading a guide (customer widget) *)

Lemma find_guide_Some (slug : string) (data : list GuideEntry) (g : GuideEntry) :
  find_guide slug (published data) = Some g ->
  In g data /\ guide_slug (entry g) = slug /\
  JS.truthy (default "" (current_version_id g)) = true.
Proof.
  unfold find_guide, published. intros [Hin Hslug]%find_some.
  apply filter_In in Hin as [Hin Hv]. by apply eqb_true_iff in Hslug.
Qed.

(** Loading never throws and always ends the loading state.  When no
    guide with a current version has the slug, only the guide list is
    fetched, no session is created, the page state is otherwise unchanged
    and "Guide not found" is shown.  When the guide is found and the three
    responses arrive, exactly the guide list, the guide's current version
    and a session of role customer for that version are requested, and
    guide, version and session are stored.  A rejected response ends the
    load with "Failed to load guide": the page is unchanged when the guide
    list is rejected, the guide is stored when the version is rejected, and
    guide and version are stored but no step is set when the session
    cannot be created.  A rejection that passes the response interceptor
    (every one but that of a guide list requested before the interceptors
    were registered) is first handled there: on status 401 the client is
    logged out and two more notifications precede that of the widget. *)
Theorem loadGuide_outcomes :
  forall (registered : bool) (guideSlug : string) (stepSlug : option string)
         (guidesResponse : AuthContext.Response (list GuideEntry))
         (versionResponse : AuthContext.Response Version)
         (sessionResponse : AuthContext.Response Session)
         (b : Backend) (c : Ctx (Loader CustomerWidget.State)),
    let r := CustomerLoad.loadGuideAndStartSession registered guideSlug stepSlug
               guidesResponse versionResponse sessionResponse b c in
    let p := page (ui c) in
    let p' := page (ui (snd r)) in
    let notified status :=
      toasts (world (snd r)) = toasts (world c) ++ interceptor_toasts status
                                 ++ [ToastError "Failed to load guide"] /\
      (status = Some 401 -> logged_out (provider (ui (snd r)))) /\
      (status <> Some 401 -> provider (ui (snd r)) = provider (ui c)) in
    fst r = Ok tt /\
    CustomerWidget.loading p' = false /\
    (forall status detail, guidesResponse = AuthContext.Failed status detail ->
       p' = CustomerLoad.setLoading false p /\
       fetched (ui (snd r)) = fetched (ui c) ++ [GetGuides] /\
       if registered then notified status
       else toasts (world (snd r)) = toasts (world c) ++ [ToastError "Failed to load guide"] /\
            provider (ui (snd r)) = provider (ui c)) /\
    (forall data, guidesResponse = AuthContext.Fulfilled data ->
       find_guide guideSlug (published data) = None ->
       p' = CustomerLoad.setLoading false p /\
       fetched (ui (snd r)) = fetched (ui c) ++ [GetGuides] /\
       toasts (world (snd r)) = toasts (world c) ++ [ToastError "Guide not found"]) /\
    (forall data g status detail,
       guidesResponse = AuthContext.Fulfilled data ->
       find_guide guideSlug (published data) = Some g ->
       versionResponse = AuthContext.Failed status detail ->
       p' = CustomerLoad.setLoading false (CustomerLoad.setGuide (Some (entry g)) p) /\
       notified status) /\
    (forall data g versionData,
       guidesResponse = AuthContext.Fulfilled data ->
       find_guide guideSlug (published data) = Some g ->
       versionResponse = AuthContext.Fulfilled versionData ->
       let vid := default "" (current_version_id g) in
       CustomerWidget.guide p' = Some (entry g) /\
       CustomerWidget.version p' = Some versionData /\
       match sessionResponse with
       | AuthContext.Fulfilled sessionData =>
           fetched (ui (snd r)) =
             fetched (ui c) ++ [GetGuides; GetVersion (guide_id (entry g)) vid;
                                PostSession "customer" vid] /\
           CustomerWidget.session p' = Some sessionData /\
           toasts (world (snd r)) = toasts (world c) /\
           provider (ui (snd r)) = provider (ui c) /\
           (0 < length (nodes versionData) ->
              CustomerWidget.stepIndex p'
                = CustomerWidget.targetStepIndex (nodes versionData) stepSlug /\
              CustomerWidget.currentStep p'
                = nodes versionData !! CustomerWidget.stepIndex p')
       | AuthContext.Failed status _ =>
           CustomerWidget.session p' = CustomerWidget.session p /\
           CustomerWidget.currentStep p' = CustomerWidget.currentStep p /\
           notified status
       end).
Proof.
  intros registered guideSlug stepSlug guidesResponse versionResponse sessionResponse b
    [[p gs fs au] [log ts cb]]. cbv zeta.
  unfold CustomerLoad.loadGuideAndStartSession, CustomerWidget.initStep.
  unfold try_finally, try_catch, bind, fetch, on_page, on_provider, AuthContext.request,
    AuthContext.responseInterceptor, AuthContext.logout, interceptor_toasts, logged_out,
    set_page, set_state, toast, ret, throw.
  cbn [ui world page fetched guides provider requests toasts clipboard fst snd].
  destruct guidesResponse as [data|st' dt];
    [destruct registered|destruct registered; [destruct (decide (st' = Some 401))|]];
    cbn -[find_guide published Nat.ltb].
  3-5: repeat split; intros; simplify_eq; rewrite ?decide_True, ?decide_False by done;
    rewrite <- ?app_assoc; try done; by destruct au.
  all: destruct (find_guide guideSlug (published data)) as [g|] eqn:Hfind;
    cbn -[find_guide published Nat.ltb];
    [|repeat split; intros; simplify_eq; try congruence; done].
  all: destruct versionResponse as [versionData|st' dt];
    [|destruct (decide (st' = Some 401))]; cbn -[Nat.ltb].
  all: try (repeat split; intros; simplify_eq;
            rewrite ?decide_True, ?decide_False by done;
            rewrite <- ?app_assoc; try done; try congruence; by destruct au).
  all: destruct sessionResponse as [sessionData|st' dt];
    [|destruct (decide (st' = Some 401))]; cbn -[Nat.ltb].
  all: try (repeat split; intros; simplify_eq;
            rewrite ?decide_True, ?decide_False by done;
            rewrite <- ?app_assoc; try done; try congruence; by destruct au).
  all: destruct (0 <? length (nodes versionData))%nat eqn:Hlen; cbn -[Nat.ltb];
    [|apply Nat.ltb_ge in Hlen];
    repeat split; intros; simplify_eq; try congruence; try lia;
    rewrite <- ?app_assoc; try done; congruence.
Qed.

Lemma loadGuide_outcomes_witness :
  let r := CustomerLoad.loadGuideAndStartSession true "reset" None
             (AuthContext.Fulfilled
                [ {| entry := sampleGuide; current_version_id := Some "v1" |} ])
             (AuthContext.Fulfilled {| nodes := [stepA] |})
             (AuthContext.Failed (Some 401) None) always_resolves
             (start {| page := emptyCustomer; guides := []; fetched := [];
                       provider := storedSession |}) in
  toasts (world (snd r)) =
    [ToastSuccess "Logged out successfully";
     ToastError "Session expired. Please login again.";
     ToastError "Failed to load guide"] /\
  logged_out (provider (ui (snd r))).
Proof.
  intros r.
  destruct (loadGuide_outcomes true "reset" None
              (AuthContext.Fulfilled
                 [ {| entry := sampleGuide; current_version_id := Some "v1" |} ])
              (AuthContext.Fulfilled {| nodes := [stepA] |})
              (AuthContext.Failed (Some 401) None) always_resolves
              (start {| page := emptyCustomer; guides := []; fetched := [];
                        provider := storedSession |}))
    as (_ & _ & _ & _ & _ & H).
  destruct (H [ {| entry := sampleGuide; current_version_id := Some "v1" |} ]
              {| entry := sampleGuide; current_version_id := Some "v1" |}
              {| nodes := [stepA] |} eq_refl eq_refl eq_refl)
    as (_ & _ & _ & _ & Ht & Hout & _).
  split; [exact Ht|exact (Hout eq_refl)].
Defined.

(** ** Loading a guide (agent portal) *)

(** Loading never throws and always ends the loading state.  The step
    that [createSession] installs is the first node of the version held
    by the render that started the load, never of the version just
    fetched: a load started while no version is held, as the first load
    is, stores the fetched version and the new session but leaves current
    step and index as they were, so no step is shown. *)
Theorem loadData_outcomes :
  forall (registered : bool) (st : AgentPortal.State) (guideSlug : option string)
         (guidesResponse : AuthContext.Response (list GuideEntry))
         (versionResponse : AuthContext.Response Version)
         (sessionResponse : AuthContext.Response Session)
         (b : Backend) (c : Ctx (Loader AgentPortal.State)),
    let r := AgentLoad.loadData registered st guideSlug guidesResponse versionResponse
               sessionResponse b c in
    let p := page (ui c) in
    let p' := page (ui (snd r)) in
    fst r = Ok tt /\
    AgentPortal.loading p' = false /\
    ((AgentPortal.currentStep p' = AgentPortal.currentStep p /\
      AgentPortal.stepIndex p' = AgentPortal.stepIndex p) \/
     (exists v, AgentPortal.currentVersion st = Some v /\
                AgentPortal.currentStep p' = nodes v !! 0 /\
                AgentPortal.stepIndex p' = 0)) /\
    (AgentPortal.currentVersion st = None ->
       AgentPortal.currentStep p' = AgentPortal.currentStep p /\
       AgentPortal.stepIndex p' = AgentPortal.stepIndex p /\
       forall data g versionData sessionData,
         guidesResponse = AuthContext.Fulfilled data ->
         JS.truthy (default "" guideSlug) = true ->
         find_guide (default "" guideSlug) (published data) = Some g ->
         versionResponse = AuthContext.Fulfilled versionData ->
         sessionResponse = AuthContext.Fulfilled sessionData ->
         AgentPortal.currentVersion p' = Some versionData /\
         AgentPortal.session p' = Some sessionData /\
         guides (ui (snd r)) = published data /\
         fetched (ui (snd r)) =
           fetched (ui c) ++
           [GetGuides;
            GetVersion (guide_id (entry g)) (default "" (current_version_id g));
            PostSession "agent" (default "" (current_version_id g))]).
Proof.
  intros registered st guideSlug guidesResponse versionResponse sessionResponse b
    [[p gs fs au] [log ts cb]]. cbv zeta.
  unfold AgentLoad.loadData, AgentLoad.createSession.
  unfold try_finally, try_catch, bind, fetch, on_provider, AuthContext.request,
    AuthContext.responseInterceptor, AuthContext.logout, set_page, setGuides,
    set_state, toast, ret, throw.
  cbn [ui world page fetched guides provider requests toasts clipboard fst snd].
  destruct guidesResponse as [data|st' dt];
    [destruct registered|destruct registered; [destruct (decide (st' = Some 401))|]];
    cbn -[find_guide published Nat.ltb];
    try (repeat split; intros; simplify_eq; auto; fail).
  all: destruct (JS.truthy (default "" guideSlug)) eqn:Hslug;
    cbn -[find_guide published Nat.ltb];
    [|repeat split; intros; simplify_eq; auto].
  all: destruct (find_guide (default "" guideSlug) (published data)) as [g|] eqn:Hfind;
    cbn -[find_guide published Nat.ltb];
    [|repeat split; intros; simplify_eq; auto].
  all: destruct versionResponse as [versionData|st' dt];
    [|destruct (decide (st' = Some 401))]; cbn -[Nat.ltb];
    try (repeat split; intros; simplify_eq; auto; fail).
  all: destruct sessionResponse as [sessionData|st' dt];
    [|destruct (decide (st' = Some 401))]; cbn -[Nat.ltb];
    try (repeat split; intros; simplify_eq; auto; fail).
  all: destruct (AgentPortal.currentVersion st) as [v|] eqn:Hv; cbn -[Nat.ltb];
    [destruct (0 <? length (nodes v))%nat; cbn -[Nat.ltb];
       (split; [done|]); (split; [done|]); (split; [|done]);
       [right; by exists v|by left]|].
  all: split; [done|]; split; [done|]; split; [by left|]; intros _;
    split; [done|]; split; [done|];
    intros data' g' v' s' [= <-] _ Hg [= <-] [= <-]; rewrite Hfind in Hg;
    injection Hg as <-; repeat split; try done; by rewrite <- !app_assoc.
Qed.

Lemma loadData_outcomes_witness :
  let data := [ {| entry := sampleGuide; current_version_id := Some "v1" |} ] in
  let st := emptyAgent (Some sampleUser) in
  let r := AgentLoad.loadData true st (Some "reset") (AuthContext.Fulfilled data)
             (AuthContext.Fulfilled {| nodes := [stepA; stepB] |})
             (AuthContext.Fulfilled sampleSession) always_resolves
             (start {| page := st; guides := []; fetched := []; provider := signedIn |}) in
  AgentPortal.currentVersion (page (ui (snd r))) = Some {| nodes := [stepA; stepB] |} /\
  AgentPortal.currentStep (page (ui (snd r))) = None.
Proof.
  intros data st r.
  destruct (loadData_outcomes true st (Some "reset") (AuthContext.Fulfilled data)
              (AuthContext.Fulfilled {| nodes := [stepA; stepB] |})
              (AuthContext.Fulfilled sampleSession) always_resolves
              (start {| page := st; guides := []; fetched := []; provider := signedIn |}))
    as (_ & _ & _ & H).
  destruct (H eq_refl) as (Hstep & _ & Hrest).
  destruct (Hrest data {| entry := sampleGuide; current_version_id := Some "v1" |}
              {| nodes := [stepA; stepB] |} sampleSession
              eq_refl eq_refl eq_refl eq_refl eq_refl) as (Hv & _).
  split; [exact Hv|exact Hstep].
Defined.

(** ** Deleting a node in the authoring studio *)

(** Deleting a node removes every node with that id and every edge that
    starts or ends at it, keeps all the other nodes and edges, and never
    leaves the deleted node selected; so a graph whose edges all join
    existing nodes still has that property afterwards. *)
Theorem deleteNode_keeps_edges_closed :
  forall (nodeId : string) (s : AuthoringStudio.State),
    let s' := AuthoringStudio.deleteNode nodeId s in
    (AuthoringStudio.edges_closed s -> AuthoringStudio.edges_closed s') /\
    (forall n, In n (AuthoringStudio.nodes s') <->
               In n (AuthoringStudio.nodes s) /\ node_id n <> Some nodeId) /\
    (forall e, In e (AuthoringStudio.edges s') <->
               In e (AuthoringStudio.edges s) /\
               AuthoringStudio.source e <> nodeId /\ AuthoringStudio.target e <> nodeId) /\
    sublist (AuthoringStudio.nodes s') (AuthoringStudio.nodes s) /\
    sublist (AuthoringStudio.edges s') (AuthoringStudio.edges s) /\
    AuthoringStudio.selected_is (AuthoringStudio.selectedNode s') nodeId = false.
Proof.
  intros nodeId s. cbv zeta.
  assert (Hnodes : forall n, In n (AuthoringStudio.nodes (AuthoringStudio.deleteNode nodeId s)) <->
            In n (AuthoringStudio.nodes s) /\ node_id n <> Some nodeId).
  { intros n. cbn [AuthoringStudio.deleteNode AuthoringStudio.nodes].
    rewrite filter_In, negb_true_iff, <- not_true_iff_false, strict_eq_true_iff. done. }
  assert (Hedges : forall e, In e (AuthoringStudio.edges (AuthoringStudio.deleteNode nodeId s)) <->
            In e (AuthoringStudio.edges s) /\
            AuthoringStudio.source e <> nodeId /\ AuthoringStudio.target e <> nodeId).
  { intros e. cbn [AuthoringStudio.deleteNode AuthoringStudio.edges].
    rewrite filter_In, andb_true_iff, !negb_true_iff, !eqb_false_iff. done. }
  split; [|split; [done|split; [done|split; [|split]]]].
  - intros Hclosed e [He [Hs Ht]]%Hedges.
    destruct (Hclosed e He) as [(n & Hn & Hns) (m & Hm & Hmt)].
    split.
    + exists n. split; [|done]. apply Hnodes. split; [done|]. congruence.
    + exists m. split; [|done]. apply Hnodes. split; [done|]. congruence.
  - apply filter_sublist.
  - apply filter_sublist.
  - cbn [AuthoringStudio.deleteNode AuthoringStudio.selectedNode].
    by destruct (AuthoringStudio.selected_is (AuthoringStudio.selectedNode s) nodeId) eqn:E.
Qed.

Lemma deleteNode_keeps_edges_closed_witness :
  let s := {| AuthoringStudio.nodes := [stepA; stepB];
              AuthoringStudio.edges :=
                [{| AuthoringStudio.edge_id := "e1"; AuthoringStudio.source := "a";
                    AuthoringStudio.target := "b" |}];
              AuthoringStudio.selectedNode := Some stepB;
              AuthoringStudio.showPropertiesPanel := true |} in
  AuthoringStudio.edges_closed (AuthoringStudio.deleteNode "b" s) /\
  AuthoringStudio.edges (AuthoringStudio.deleteNode "b" s) = [].
Proof.
  intros s.
  destruct (deleteNode_keeps_edges_closed "b" s) as (H & _).
  split; [|reflexivity]. apply H.
  intros e [<-|[]]. split.
  - exists stepA. split; [simpl; auto|reflexivity].
  - exists stepB. split; [simpl; auto|reflexivity].
Defined.

(** ** The CRM form cannot be submitted *)

(** The CRM form and the step card are never rendered together, and the
    form is rendered only while crm_id is empty; so a submit of the
    rendered form always ends in "CRM ID is required" and sends neither
    the CRM-context patch nor the crm_form_submitted event. *)
Theorem crm_form_submit_unreachable :
  forall (b : Backend) (st : AgentPortal.State) (c : Ctx AgentPortal.State),
    crmForm_rendered st = true ->
    let r := AgentPortal.handleCrmSubmit st b c in
    AgentPortal.navigation_rendered st = false /\
    requests (world (snd r)) = requests (world c) /\
    toasts (world (snd r)) = toasts (world c) ++ [ToastError "CRM ID is required"].
Proof.
  intros b st c Hform. cbv zeta.
  unfold crmForm_rendered in Hform.
  destruct (AgentPortal.session st); [|done].
  apply negb_true_iff, truthy_false_iff in Hform.
  split.
  - unfold AgentPortal.navigation_rendered. rewrite Hform.
    by destruct (AgentPortal.currentStep st).
  - rewrite handleCrmSubmit_blank; [done|]. by rewrite Hform.
Qed.

Lemma crm_form_submit_unreachable_witness :
  let st := agentAt [stepA] 0 (Some stepA) ∅ "" in
  requests (world (snd (AgentPortal.handleCrmSubmit st always_resolves (start st)))) = [].
Proof.
  intros st.
  destruct (crm_form_submit_unreachable always_resolves st (start st) eq_refl)
    as (_ & H & _).
  exact H.
Defined.

(** ** What the handlers send *)

Ltac sent_nothing := exists []; split; [by rewrite app_nil_r|apply List.Forall_nil].

Ltac sent_some :=
  eexists; split; [rewrite <- ?app_assoc; reflexivity|];
  repeat (apply List.Forall_cons;
          [split; [eexists; split; reflexivity
                  |split; [reflexivity|intros ? [= <-]; simpl; tauto]]|]);
  apply List.Forall_nil.

Lemma customer_step_session (b : Backend) (c c' : Ctx CustomerWidget.State) :
  customer_step b c c' ->
  CustomerWidget.session (ui c') = CustomerWidget.session (ui c).
Proof.
  destruct 1; try done.
  - unfold CustomerWidget.handleStepComplete, CustomerWidget.completeSession.
    run_handler.
  - unfold CustomerWidget.handleEscalation. run_handler.
Qed.

Lemma agent_step_session (b : Backend) (c c' : Ctx AgentPortal.State) :
  agent_step b c c' ->
  AgentPortal.session (ui c') = AgentPortal.session (ui c).
Proof.
  destruct 1; try done.
  - unfold AgentPortal.navigationClick, AgentPortal.handleStepComplete,
      AgentPortal.completeSession, AgentPortal.generateCrmNote.
    run_handler.
  - unfold AgentPortal.handleEscalation. run_handler.
  - unfold AgentPortal.handleCrmSubmit. run_handler.
Qed.

Lemma customer_step_sent (b : Backend) (c c' : Ctx CustomerWidget.State) :
  customer_step b c c' ->
  exists l, requests (world c') = requests (world c) ++ l /\
    Forall (sent_for (CustomerWidget.session (ui c)) customer_kind
              ["step_completed"; "session_completed"; "escalation_submitted"]) l.
Proof.
  destruct c as [st [log ts cb]].
  destruct 1 as [i x c|c|c|x c|m c|f c]; try sent_nothing.
  - unfold CustomerWidget.handleStepComplete, CustomerWidget.completeSession.
    unfold try_catch, bind, deref, of_result, axios, toast, set_state, ret, throw.
    reduce_ctx.
    destruct c as [st' [log' ts' cb']]. reduce_ctx.
    destruct (CustomerWidget.currentStep st') as [step|]; reduce_ctx; [|sent_nothing].
    destruct (CustomerWidget.missingInputs _ _) as [missing|e]; reduce_ctx;
      [|sent_nothing].
    destruct (0 <? length missing)%nat; reduce_ctx; [sent_nothing|].
    destruct (CustomerWidget.session st') as [s|] eqn:Hs; reduce_ctx; [|sent_nothing].
    destruct (b log' _); reduce_ctx; [|sent_some].
    destruct (CustomerWidget.version st') as [v|]; reduce_ctx; [|sent_some].
    destruct (_ <? _)%nat; reduce_ctx; [sent_some|].
    destruct (b _ (PostSessionComplete _)); reduce_ctx; [|sent_some].
    destruct (b _ (PostEvent _)); reduce_ctx; sent_some.
  - unfold CustomerWidget.handleEscalation.
    unfold try_catch, bind, deref, axios, toast, set_state, ret, throw. reduce_ctx.
    destruct c as [st' [log' ts' cb']]. reduce_ctx.
    destruct (negb _); reduce_ctx; [sent_nothing|].
    destruct (CustomerWidget.session st') as [s|] eqn:Hs; reduce_ctx; [|sent_nothing].
    destruct (CustomerWidget.guide st'); reduce_ctx; [|sent_nothing].
    destruct (CustomerWidget.currentStep st'); reduce_ctx; [|sent_nothing].
    destruct (CustomerWidget.version st'); reduce_ctx; [|sent_nothing].
    destruct (b log' _); reduce_ctx; [|sent_some].
    destruct (b _ (PostEvent _)); reduce_ctx; sent_some.
Qed.

Lemma agent_step_sent (b : Backend) (c c' : Ctx AgentPortal.State) :
  agent_step b c c' ->
  exists l, requests (world c') = requests (world c) ++ l /\
    Forall (sent_for (AgentPortal.session (ui c)) agent_kind
              ["step_completed"; "session_completed"; "crm_form_submitted"]) l.
Proof.
  destruct 1 as [i x c|c|c|f c|c]; try sent_nothing.
  - unfold AgentPortal.navigationClick, AgentPortal.handleStepComplete,
      AgentPortal.completeSession, AgentPortal.generateCrmNote.
    unfold try_catch, bind, deref, axios, toast, set_state, clipboard_writeText, ret, throw.
    destruct c as [st' [log' ts' cb']]. reduce_ctx.
    destruct (_ <? _)%Z; reduce_ctx.
    + destruct (AgentPortal.session st') as [s|] eqn:Hs; reduce_ctx; [|sent_nothing].
      destruct (AgentPortal.currentStep st') as [step|]; reduce_ctx; [|sent_nothing].
      destruct (b log' _); reduce_ctx; [|sent_some].
      destruct (AgentPortal.currentVersion st') as [v|]; reduce_ctx; [|sent_some].
      destruct (_ <? _)%nat; reduce_ctx; [sent_some|].
      destruct (b _ (PostSessionComplete _)); reduce_ctx; [|sent_some].
      destruct (b _ (PostEvent _)); reduce_ctx; [|sent_some].
      destruct (AgentPortal.currentGuide st'); reduce_ctx; [|sent_some].
      destruct (AgentPortal.user st'); reduce_ctx; sent_some.
    + destruct (AgentPortal.session st') as [s|] eqn:Hs; reduce_ctx; [|sent_nothing].
      destruct (b log' _); reduce_ctx; [|sent_some].
      destruct (b _ (PostEvent _)); reduce_ctx; [|sent_some].
      destruct (AgentPortal.currentGuide st'); reduce_ctx; [|sent_some].
      destruct (AgentPortal.user st'); reduce_ctx; sent_some.
  - unfold AgentPortal.handleEscalation.
    unfold try_catch, bind, deref, axios, toast, ret, throw.
    destruct c as [st' [log' ts' cb']]. reduce_ctx.
    destruct (AgentPortal.session st') as [s|] eqn:Hs; reduce_ctx; [|sent_nothing].
    destruct (AgentPortal.currentGuide st'); reduce_ctx; [|sent_nothing].
    destruct (AgentPortal.currentStep st'); reduce_ctx; [|sent_nothing].
    destruct (AgentPortal.currentVersion st'); reduce_ctx; [|sent_nothing].
    destruct (AgentPortal.user st'); reduce_ctx; [|sent_nothing].
    destruct (b log' _); reduce_ctx; sent_some.
  - unfold AgentPortal.handleCrmSubmit.
    unfold try_catch, bind, deref, axios, toast, ret, throw.
    destruct c as [st' [log' ts' cb']]. reduce_ctx.
    destruct (negb _); reduce_ctx; [sent_nothing|].
    destruct (AgentPortal.session st') as [s|] eqn:Hs; reduce_ctx; [|sent_nothing].
    destruct (AgentPortal.user st'); reduce_ctx; [|sent_nothing].
    destruct (b log' _); reduce_ctx; [|sent_some].
    destruct (b _ (PostEvent _)); reduce_ctx; sent_some.
Qed.

(** Under every sequence of handler runs of either runtime the log of
    requests only grows, and every request added names the session of the
    page.  The customer widget sends no CRM-context patch and only events
    tagged step_completed, session_completed or escalation_submitted; the
    agent portal only events tagged step_completed, session_completed or
    crm_form_submitted. *)
Theorem requests_name_the_session :
  (forall (b : Backend) (c c' : Ctx CustomerWidget.State),
      rtc (customer_step b) c c' ->
      exists l, requests (world c') = requests (world c) ++ l /\
        Forall (sent_for (CustomerWidget.session (ui c)) customer_kind
                  ["step_completed"; "session_completed"; "escalation_submitted"]) l) /\
  (forall (b : Backend) (c c' : Ctx AgentPortal.State),
      rtc (agent_step b) c c' ->
      exists l, requests (world c') = requests (world c) ++ l /\
        Forall (sent_for (AgentPortal.session (ui c)) agent_kind
                  ["step_completed"; "session_completed"; "crm_form_submitted"]) l).
Proof.
  split.
  - intros b c c'. induction 1 as [c|c1 c2 c3 Hstep _ (l2 & Hl2 & Hf2)]; [sent_nothing|].
    destruct (customer_step_sent b c1 c2 Hstep) as (l1 & Hl1 & Hf1).
    exists (l1 ++ l2). split; [by rewrite Hl2, Hl1, app_assoc|].
    apply Forall_app. split; [done|].
    by rewrite (customer_step_session b c1 c2 Hstep) in Hf2.
  - intros b c c'. induction 1 as [c|c1 c2 c3 Hstep _ (l2 & Hl2 & Hf2)]; [sent_nothing|].
    destruct (agent_step_sent b c1 c2 Hstep) as (l1 & Hl1 & Hf1).
    exists (l1 ++ l2). split; [by rewrite Hl2, Hl1, app_assoc|].
    apply Forall_app. split; [done|].
    by rewrite (agent_step_session b c1 c2 Hstep) in Hf2.
Qed.

Lemma requests_name_the_session_witness :
  let c := start (customerAt [stepA] 0 (Some stepA) ∅ "") in
  let c' := click CustomerWidget.handleStepComplete always_resolves c in
  exists l, requests (world c') = l /\
    Forall (sent_for (Some sampleSession) customer_kind
              ["step_completed"; "session_completed"; "escalation_submitted"]) l.
Proof.
  intros c c'.
  destruct requests_name_the_session as (H & _).
  destruct (H always_resolves c c') as (l & Hl & Hf).
  - apply rtc_once. exact (customer_advance always_resolves c).
  - exists l. split; [exact Hl|exact Hf].
Defined.
